(** * goliz: candlestick summary and chart rasterizer

    A shallow embedding of [analysis.go] (the indicator engine,
    [AnalyzeCandlestickData]) and of [chart.go] (the rasterizer,
    [GenerateCandlestickChart] and [GenerateChartWithLevels] with their
    drawing helpers), followed by the properties checked against them.

    Conventions.
    - Go's [int] is a 64-bit two's complement integer: it is modelled as [Z]
      and every operation wraps ([Int.wrap]).
    - Go's [float64] is an interface [Float64] with two instances: [binary64]
      (IEEE 754 double precision, through the kernel's primitive floats), on
      which the code is run on concrete inputs, and [exactQ] (rational
      arithmetic with no rounding), on which order properties of the
      arithmetic are proved.
    - A run-time panic is an outcome of its own ([Panic]); an [error] return
      is [Err].
    - The image is modelled by the ordered list of calls to the drawing
      primitives that paint it. *)

From Stdlib Require Import ZArith List Bool Lia String.
From Stdlib Require Import QArith Qround Lqa.
From Stdlib Require Import PrimFloat FloatOps SpecFloat Uint63.
Import ListNotations.

Local Open Scope Z_scope.

(** ** Machine integers *)

Module Int.

Definition min_int : Z := - 2 ^ 63.
Definition max_int : Z := 2 ^ 63 - 1.

(** Two's complement wrap-around to 64 bits. *)
Definition wrap (z : Z) : Z := (z + 2 ^ 63) mod 2 ^ 64 - 2 ^ 63.

Definition in_range (z : Z) : Prop := min_int <= z <= max_int.

Definition add (a b : Z) : Z := wrap (a + b).
Definition sub (a b : Z) : Z := wrap (a - b).
Definition mul (a b : Z) : Z := wrap (a * b).

(** Go's [/] on integers truncates toward zero. The divisor is checked for
    zero by the caller, where the program can panic. *)
Definition div (a b : Z) : Z := wrap (Z.quot a b).

End Int.

Declare Scope int_scope.
Delimit Scope int_scope with int.
Arguments Int.add (a b)%_int_scope.
Arguments Int.sub (a b)%_int_scope.
Arguments Int.mul (a b)%_int_scope.
Arguments Int.div (a b)%_int_scope.
Infix "+" := Int.add : int_scope.
Infix "-" := Int.sub : int_scope.
Infix "*" := Int.mul : int_scope.
Infix "/" := Int.div : int_scope.

(** ** Floating point numbers *)

(** The operations of [float64] the program uses. [fconst n d] is the
    literal whose decimal value is [n / d]; [of_int] is the conversion
    [float64(i)] and [to_int] the conversion [int(x)], which truncates toward
    zero. *)
Class Float64 (F : Type) : Type := {
  fadd : F -> F -> F;
  fsub : F -> F -> F;
  fmul : F -> F -> F;
  fdiv : F -> F -> F;
  flt : F -> F -> bool;
  fle : F -> F -> bool;
  feq : F -> F -> bool;
  fconst : Z -> positive -> F;
  of_int : Z -> F;
  to_int : F -> Z
}.

Declare Scope f64_scope.
Delimit Scope f64_scope with f64.
Infix "+" := fadd : f64_scope.
Infix "-" := fsub : f64_scope.
Infix "*" := fmul : f64_scope.
Infix "/" := fdiv : f64_scope.
Notation "x <? y" := (flt x y) : f64_scope.
Notation "x >? y" := (flt y x) : f64_scope.
Notation "x >=? y" := (fle y x) : f64_scope.
Notation "x =? y" := (feq x y) : f64_scope.

Definition fzero {F : Type} {fl : Float64 F} : F := fconst 0 1.

(** *** IEEE 754 binary64 *)

Module Binary64.

(** [float64(i)] for a 64-bit integer: the nearest double. *)
Definition of_Z (z : Z) : float :=
  if z =? Int.min_int then (-9223372036854775808)%float
  else if z <? 0 then PrimFloat.opp (PrimFloat.of_uint63 (Uint63.of_Z (- z)))
  else PrimFloat.of_uint63 (Uint63.of_Z z).

(** [int(x)]: the integer part of [x]. Where the integer part does not fit
    in 64 bits, or [x] is a NaN or an infinity, Go leaves the result to
    the implementation; on amd64 it is the smallest integer. *)
Definition to_Z (x : float) : Z :=
  match Prim2SF x with
  | S754_zero _ => 0
  | S754_finite s m e =>
      let mag := if 0 <=? e then Z.pos m * 2 ^ e else Z.pos m / 2 ^ (- e) in
      let v := if s then - mag else mag in
      if (Int.min_int <=? v) && (v <=? Int.max_int) then v else Int.min_int
  | _ => Int.min_int
  end.

(** A decimal literal: both operands are exact and the quotient is
    correctly rounded, so this is the double nearest to [n / d]. *)
Definition const (n : Z) (d : positive) : float :=
  PrimFloat.div (of_Z n) (of_Z (Z.pos d)).

End Binary64.

#[export] Instance binary64 : Float64 float := {
  fadd := PrimFloat.add;
  fsub := PrimFloat.sub;
  fmul := PrimFloat.mul;
  fdiv := PrimFloat.div;
  flt := PrimFloat.ltb;
  fle := PrimFloat.leb;
  feq := PrimFloat.eqb;
  fconst := Binary64.const;
  of_int := Binary64.of_Z;
  to_int := Binary64.to_Z
}.

(** *** Exact rational arithmetic

    No rounding, no infinities and no NaN; a division by zero, which has no
    rational value, gives 0 as [Qdiv] does. *)

Module Exact.

Definition ltb (x y : Q) : bool := negb (Qle_bool y x).

(** Truncation toward zero, with the out-of-range convention of
    [Binary64.to_Z]. *)
Definition to_Z (x : Q) : Z :=
  let v := Z.quot (Qnum x) (Z.pos (Qden x)) in
  if (Int.min_int <=? v) && (v <=? Int.max_int) then v else Int.min_int.

End Exact.

#[export] Instance exactQ : Float64 Q := {
  fadd := Qplus;
  fsub := Qminus;
  fmul := Qmult;
  fdiv := Qdiv;
  flt := Exact.ltb;
  fle := Qle_bool;
  feq := Qeq_bool;
  fconst := fun n d => Qmake n d;
  of_int := inject_Z;
  to_int := Exact.to_Z
}.

(** ** Data model ([binance.go], [analysis.go]) *)

Section Analysis.

Context {F : Type} {fl : Float64 F}.

(** [time.Time] is kept as an integer time stamp. *)
Record Candlestick : Type := {
  OpenTime : Z;
  Open : F;
  High : F;
  Low : F;
  Close : F;
  Volume : F;
  CloseTime : Z
}.

(** [Time] holds the open time whose ["01-02 15:04"] rendering the program
    stores; [Type] is [BULL], [BEAR], [DOJI] or empty. *)
Record CandleSimple : Type := {
  Time : Z;
  O : F;
  H : F;
  L : F;
  C : F;
  Vol : F;
  Change : F;
  Type_ : string
}.

Record CandleDataSummary : Type := {
  Interval : string;
  CandleCount : Z;
  StartTime : Z;
  EndTime : Z;
  SOpen : F;
  SHigh : F;
  SLow : F;
  SClose : F;
  TotalVolume : F;
  AvgVolume : F;
  PriceChange : F;
  Trend : string;
  MA20 : F;
  MA50 : F;
  RSI : F;
  Volatility : string;
  LastCandles : list CandleSimple
}.

(** The zero values [Candlestick{}] and [CandleDataSummary{}]. *)
Definition zeroCandle : Candlestick :=
  {| OpenTime := 0; Open := fzero; High := fzero; Low := fzero;
     Close := fzero; Volume := fzero; CloseTime := 0 |}.

Definition zeroSummary : CandleDataSummary :=
  {| Interval := ""; CandleCount := 0; StartTime := 0; EndTime := 0;
     SOpen := fzero; SHigh := fzero; SLow := fzero; SClose := fzero;
     TotalVolume := fzero; AvgVolume := fzero; PriceChange := fzero;
     Trend := ""; MA20 := fzero; MA50 := fzero; RSI := fzero;
     Volatility := ""; LastCandles := [] |}.

(** [candles[i]]. Every index the program reads is inside the slice by the
    guard on [len(candles)] around the read, except the two reads that the
    rasterizer checks itself ([lastVisible] below). *)
Definition at_ (candles : list Candlestick) (i : nat) : Candlestick :=
  nth i candles zeroCandle.

(** The indices [lo, lo+1, ..., hi-1] of a [for i := lo; i < hi; i++]. *)
Definition indices (lo hi : nat) : list nat := seq lo (hi - lo).

(** ** [AnalyzeCandlestickData] *)

(** Highest high, lowest low and total volume: lines 60-68. *)
Definition scanStep (acc : F * F * F) (c : Candlestick) : F * F * F :=
  let '(hi, lo, vol) := acc in
  (if (High c >? hi)%f64 then High c else hi,
   if (Low c <? lo)%f64 then Low c else lo,
   (vol + Volume c)%f64).

Definition scanHighLowVolume (candles : list Candlestick) : F * F * F :=
  fold_left scanStep candles
    (High (at_ candles 0), Low (at_ candles 0), fzero).

(** Sum of the closes of the last [n] bars: lines 78-81 and 86-89. *)
Definition sumLastCloses (candles : list Candlestick) (n : nat) : F :=
  let len := List.length candles in
  fold_left (fun sum i => (sum + Close (at_ candles i))%f64)
    (indices (len - n) len) fzero.

(** Gains and losses over the last 14 close-to-close changes: lines
    95-103. *)
Definition rsiStep (candles : list Candlestick) (acc : F * F) (i : nat)
  : F * F :=
  let '(gains, losses) := acc in
  let change := (Close (at_ candles i) - Close (at_ candles (i - 1)))%f64 in
  if (change >? fzero)%f64 then ((gains + change)%f64, losses)
  else (gains, (losses - change)%f64).

Definition gainsLosses (candles : list Candlestick) : F * F :=
  let len := List.length candles in
  fold_left (rsiStep candles) (indices (len - 14) len) (fzero, fzero).

Definition rsi14 (candles : list Candlestick) : F :=
  let '(gains, losses) := gainsLosses candles in
  let avgGain := (gains / fconst 14 1)%f64 in
  let avgLoss := (losses / fconst 14 1)%f64 in
  if (avgLoss >? fzero)%f64 then
    let rs := (avgGain / avgLoss)%f64 in
    (fconst 100 1 - fconst 100 1 / (fconst 1 1 + rs))%f64
  else fconst 100 1.

(** Lines 115-121. *)
Definition trendOf (close ma20 ma50 : F) : string :=
  if (close >? ma20)%f64 && (ma20 >? ma50)%f64 then "BULLISH"
  else if (close <? ma20)%f64 && (ma20 <? ma50)%f64 then "BEARISH"
  else "SIDEWAYS".

(** Lines 125-137. *)
Definition volatilityOf (candles : list Candlestick) (close : F) : string :=
  let len := List.length candles in
  let atrSum :=
    fold_left
      (fun sum i => (sum + (High (at_ candles i) - Low (at_ candles i)))%f64)
      (indices (len - 14) len) fzero in
  let atr := (atrSum / fconst 14 1)%f64 in
  let atrPercent := (atr / close * fconst 100 1)%f64 in
  if (atrPercent >? fconst 3 1)%f64 then "HIGH"
  else if (atrPercent >? fconst 15 10)%f64 then "MEDIUM"
  else "LOW".

(** Lines 162-173. *)
Definition candleType (c : Candlestick) : string :=
  let bodySize := (Close c - Open c)%f64 in
  let totalRange := (High c - Low c)%f64 in
  if (totalRange >? fzero)%f64 then
    let bodyRatio := (bodySize / totalRange)%f64 in
    if (bodyRatio >? fconst 1 10)%f64 then "BULL"
    else if (bodyRatio <? fconst (-1) 10)%f64 then "BEAR"
    else "DOJI"
  else "".

(** The body of the loop of lines 145-176 at index [i]. *)
Definition simpleCandle (candles : list Candlestick) (i : nat)
  : CandleSimple :=
  let c := at_ candles i in
  {| Time := OpenTime c;
     O := Open c; H := High c; L := Low c; C := Close c; Vol := Volume c;
     Change :=
       if (0 <? i)%nat then
         let prev := Close (at_ candles (i - 1)) in
         ((Close c - prev) / prev * fconst 100 1)%f64
       else fzero;
     Type_ := candleType c |}.

(** [startIdx] of lines 141-144; the subtraction on [nat] stops at 0. *)
Definition startIdx (candles : list Candlestick) : nat :=
  List.length candles - 10.

Definition lastCandles (candles : list Candlestick) : list CandleSimple :=
  map (simpleCandle candles) (indices (startIdx candles) (List.length candles)).

Definition AnalyzeCandlestickData (candles : list Candlestick)
    (interval : string) : CandleDataSummary :=
  let len := List.length candles in
  if (len =? 0)%nat then zeroSummary
  else
    let open := Open (at_ candles 0) in
    let close := Close (at_ candles (len - 1)) in
    let '(high, low, totalVolume) := scanHighLowVolume candles in
    let ma20 :=
      if (20 <=? len)%nat then (sumLastCloses candles 20 / fconst 20 1)%f64
      else fzero in
    let ma50 :=
      if (50 <=? len)%nat then (sumLastCloses candles 50 / fconst 50 1)%f64
      else fzero in
    {| Interval := interval;
       CandleCount := Z.of_nat len;
       StartTime := OpenTime (at_ candles 0);
       EndTime := CloseTime (at_ candles (len - 1));
       SOpen := open;
       SHigh := high;
       SLow := low;
       SClose := close;
       TotalVolume := totalVolume;
       AvgVolume := (totalVolume / of_int (Z.of_nat len))%f64;
       PriceChange :=
         if (open >? fzero)%f64
         then ((close - open) / open * fconst 100 1)%f64 else fzero;
       Trend := trendOf close ma20 ma50;
       MA20 := ma20;
       MA50 := ma50;
       RSI := if (15 <=? len)%nat then rsi14 candles else fzero;
       Volatility :=
         if (14 <=? len)%nat then volatilityOf candles close else "";
       LastCandles := lastCandles candles |}.

End Analysis.

Arguments Candlestick F : clear implicits.
Arguments CandleSimple F : clear implicits.
Arguments CandleDataSummary F : clear implicits.

(** ** Outcomes of a call that can fail *)

(** [Ok] is a normal return, [Err] a returned [error] and [Panic] a run-time
    panic, each of the last two with its message. *)
Inductive outcome (T : Type) : Type :=
| Ok (v : T)
| Err (msg : string)
| Panic (msg : string).

Arguments Ok {T} v.
Arguments Err {T} msg.
Arguments Panic {T} msg.

Definition bind {T U : Type} (m : outcome T) (k : T -> outcome U)
  : outcome U :=
  match m with
  | Ok v => k v
  | Err msg => Err msg
  | Panic msg => Panic msg
  end.

Notation "x <- m ;; k" := (bind m (fun x => k))
  (at level 61, m at next level, right associativity).

(** ** Colors and configuration ([chart.go]) *)

Inductive RGBA : Type := rgba (r g b a : Z).

Definition colorBullish : RGBA := rgba 38 166 91 255.
Definition colorBearish : RGBA := rgba 231 76 60 255.
Definition colorBgDark : RGBA := rgba 21 25 31 255.
Definition colorBgLight : RGBA := rgba 255 255 255 255.
Definition colorGridDark : RGBA := rgba 42 46 57 255.
Definition colorGridLight : RGBA := rgba 230 230 230 255.
Definition colorTextDark : RGBA := rgba 180 180 180 255.
Definition colorTextLight : RGBA := rgba 60 60 60 255.
Definition colorMA20 : RGBA := rgba 255 193 7 255.
Definition colorMA50 : RGBA := rgba 156 39 176 255.
Definition colorVolume : RGBA := rgba 100 149 237 128.
Definition colorEntry : RGBA := rgba 33 150 243 255.
Definition colorSL : RGBA := rgba 244 67 54 255.
Definition colorTP : RGBA := rgba 76 175 80 255.

Definition RGBA_eqb (c d : RGBA) : bool :=
  let '(rgba r g b a) := c in
  let '(rgba r' g' b' a') := d in
  (r =? r') && (g =? g') && (b =? b') && (a =? a').

Record ChartConfig : Type := {
  Width : Z;
  Height : Z;
  Padding : Z;
  CandleWidth : Z;
  CandleGap : Z;
  ShowVolume : bool;
  ShowMA : bool;
  MAperiods : list Z;
  DarkMode : bool
}.

Definition DefaultChartConfig : ChartConfig :=
  {| Width := 1200; Height := 600; Padding := 60;
     CandleWidth := 4; CandleGap := 2;
     ShowVolume := true; ShowMA := true;
     MAperiods := [20; 50]; DarkMode := true |}.

(** ** Drawing primitives that work on integers only *)

(** One call [img.Set(x, y, c)]. A call outside the bounds of the image
    leaves the image as it is. *)
Definition Pixel : Type := (Z * Z * RGBA)%type.

(** The values [lo, lo+step, ...] not above [hi], for a loop
    [for v := lo; v <= hi; v += step] with [0 < step] whose counter stays
    below the largest integer. *)
Definition upto (lo hi step : Z) : list Z :=
  if lo <=? hi
  then map (fun k => lo + step * Z.of_nat k)
           (seq 0 (Z.to_nat ((hi - lo) / step + 1)))
  else [].

(** The rows the grid is drawn on: the outer loop of
    [drawHorizontalGridLines], [i] from 0 to [count] included. *)
Definition gridRows (y1 y2 count : Z) : list Z :=
  let step := ((y2 - y1) / count)%int in
  map (fun i => (y1 + i * step)%int) (upto 0 count 1).

Definition drawHorizontalGridLines (x1 x2 y1 y2 count : Z) (c : RGBA)
  : list Pixel :=
  flat_map (fun y => map (fun x => (x, y, c)) (upto x1 x2 3))
           (gridRows y1 y2 count).

Definition drawLine (x1 y1 x2 y2 : Z) (c : RGBA) : list Pixel :=
  if x1 =? x2 then
    map (fun y => (x1, y, c)) (upto (Z.min y1 y2) (Z.max y1 y2) 1)
  else if y1 =? y2 then
    map (fun x => (x, y1, c)) (upto (Z.min x1 x2) (Z.max x1 x2) 1)
  else [].

Definition drawFilledRect (x1 y1 x2 y2 : Z) (c : RGBA) : list Pixel :=
  flat_map (fun x => map (fun y => (x, y, c)) (upto y1 (y2 - 1) 1))
           (upto x1 (x2 - 1) 1).

Definition drawHorizontalLevelLine (x1 x2 y : Z) (c : RGBA) : list Pixel :=
  flat_map (fun x => [(x, y, c); (x, (y - 1)%int, c)]) (upto x1 x2 1).

(** ** The rasterizer ([chart.go]) *)

Section Chart.

Context {F : Type} {fl : Float64 F}.

(** The text of a call to [drawText], before formatting. *)
Inductive Label : Type :=
| Title (symbol interval : string)
| EntryTitle (symbol interval : string)
| PriceText (decimals : nat) (price : F)
| CurrentPrice (decimals : nat) (price : F)
| LevelText (name : string) (price : F)
| Timestamp
| Legend.

(** The calls that paint the image, in the order the program makes them.
    [Background] is the allocation of the canvas with its fill. *)
Inductive DrawCmd : Type :=
| Background (w h : Z) (c : RGBA)
| GridLines (x1 x2 y1 y2 count : Z) (c : RGBA)
| Line (x1 y1 x2 y2 : Z) (c : RGBA)
| FilledRect (x1 y1 x2 y2 : Z) (c : RGBA)
| LineBresenham (x0 y0 x1 y1 : Z) (c : RGBA)
| LevelLine (x1 x2 y : Z) (c : RGBA)
| Text (x y : Z) (text : Label) (c : RGBA).

Record TradeLevels : Type := {
  Entry : F;
  SL : F;
  TP1 : F;
  TP2 : F;
  TP3 : F
}.

(** [image.NewRGBA(image.Rect(0, 0, w, h))] of Go's standard library: the
    rectangle is put in canonical form, and the allocation panics when
    the size of the pixel buffer does not fit an [int]. *)
Definition newRGBA (w h : Z) : outcome (Z * Z) :=
  let dx := if w <? 0 then (0 - w)%int else w in
  let dy := if h <? 0 then (0 - h)%int else h in
  if (dx <? 0) || (dy <? 0) || (Int.max_int <? 4 * dx * dy)
  then Panic "image: NewRGBA Rectangle has huge or negative dimensions"
  else Ok (dx, dy).

(** [png.Encode] of Go's standard library refuses an image with an empty
    or oversized side. *)
Definition pngEncode (size : Z * Z) (cmds : list DrawCmd)
  : outcome (list DrawCmd) :=
  let '(dx, dy) := size in
  if (dx <=? 0) || (dy <=? 0) || (2 ^ 32 <=? dx) || (2 ^ 32 <=? dy)
  then Err "failed to encode PNG"
  else Ok cmds.

(** Lowest low, highest high and largest volume: lines 78-90. *)
Definition rangeStep (acc : F * F * F) (c : Candlestick F) : F * F * F :=
  let '(minPrice, maxPrice, maxVolume) := acc in
  (if (Low c <? minPrice)%f64 then Low c else minPrice,
   if (High c >? maxPrice)%f64 then High c else maxPrice,
   if (Volume c >? maxVolume)%f64 then Volume c else maxVolume).

Definition priceVolumeRange (candles : list (Candlestick F)) : F * F * F :=
  fold_left rangeStep candles
    (Low (at_ candles 0), High (at_ candles 0), Volume (at_ candles 0)).

(** The 5% padding of lines 93-96: the padded minimum, the padded maximum
    and the range between them. *)
Definition padRange (minPrice maxPrice : F) : F * F * F :=
  let priceRange := (maxPrice - minPrice)%f64 in
  let minPrice' := (minPrice - priceRange * fconst 5 100)%f64 in
  let maxPrice' := (maxPrice + priceRange * fconst 5 100)%f64 in
  (minPrice', maxPrice', (maxPrice' - minPrice')%f64).

(** The pixel row of a price, the expression of lines 135-138, 280 and
    616-644: [chartTop + int((maxPrice-price)/priceRange*chartHeight)]. *)
Definition priceY (chartTop : Z) (maxPrice priceRange chartHeight price : F)
  : Z :=
  (chartTop + to_int ((maxPrice - price) / priceRange * chartHeight)%f64)%int.

(** The chart area and the volume area: lines 99-114 and 124. *)
Record Layout : Type := {
  chartLeft : Z;
  chartRight : Z;
  chartTop : Z;
  chartBottom : Z;
  chartWidth : Z;
  chartHeight : Z;
  volumeTop : Z;
  volumeBottom : Z;
  volumeHeight : Z;
  totalCandleWidth : Z
}.

(** [labelSpace] is 0 for the plain chart and 80 for the chart with
    levels, which keeps room for the labels of the levels. *)
Definition layout (config : ChartConfig) (labelSpace : Z) : Layout :=
  let left := Padding config in
  let right := (Width config - Padding config - labelSpace)%int in
  let top := Padding config in
  let bottom :=
    if ShowVolume config
    then to_int (of_int (Height config - Padding config)%int
                 * fconst 75 100)%f64
    else (Height config - Padding config)%int in
  let vtop := (bottom + 10)%int in
  let vbottom := (Height config - Padding config)%int in
  {| chartLeft := left; chartRight := right;
     chartTop := top; chartBottom := bottom;
     chartWidth := (right - left)%int;
     chartHeight := (bottom - top)%int;
     volumeTop := vtop; volumeBottom := vbottom;
     volumeHeight := (vbottom - vtop)%int;
     totalCandleWidth := (CandleWidth config + CandleGap config)%int |}.

(** Lines 125-128: the number of candles that fit, and the trim to the
    most recent ones. The division panics on a zero divisor, and the slice
    expression [candles[len(candles)-maxCandles:]] panics when its lower
    bound is above the length, which is when [maxCandles] is negative. *)
Definition maxCandlesOf (lay : Layout) : outcome Z :=
  if totalCandleWidth lay =? 0
  then Panic "runtime error: integer divide by zero"
  else Ok (chartWidth lay / totalCandleWidth lay)%int.

Definition visibleCandles (lay : Layout) (candles : list (Candlestick F))
  : outcome (list (Candlestick F)) :=
  maxCandles <- maxCandlesOf lay ;;
  if maxCandles <? Z.of_nat (List.length candles) then
    if maxCandles <? 0
    then Panic "runtime error: slice bounds out of range"
    else Ok (skipn (List.length candles - Z.to_nat maxCandles) candles)
  else Ok candles.

(** [candles[len(candles)-1]] of lines 197 and 658. *)
Definition lastVisible (candles : list (Candlestick F))
  : outcome (Candlestick F) :=
  match candles with
  | [] => Panic "runtime error: index out of range [-1]"
  | _ => Ok (at_ candles (List.length candles - 1))
  end.

(** The body of the loop of lines 131-174 for the candle [c] at index
    [i]. *)
Definition drawCandle (config : ChartConfig) (lay : Layout)
    (maxPrice priceRange maxVolume : F) (i : nat) (c : Candlestick F)
  : list DrawCmd :=
  let x := (chartLeft lay + Z.of_nat i * totalCandleWidth lay
            + CandleGap config / 2)%int in
  let y := priceY (chartTop lay) maxPrice priceRange
             (of_int (chartHeight lay)) in
  let openY := y (Open c) in
  let closeY := y (Close c) in
  let highY := y (High c) in
  let lowY := y (Low c) in
  let candleColor :=
    if (Close c <? Open c)%f64 then colorBearish else colorBullish in
  let wickX := (x + CandleWidth config / 2)%int in
  let bodyTop := if closeY <? openY then closeY else openY in
  let bodyBottom := if closeY <? openY then openY else closeY in
  let bodyBottom :=
    if (bodyBottom - bodyTop)%int <? 1 then (bodyTop + 1)%int
    else bodyBottom in
  [Line wickX highY wickX lowY candleColor;
   FilledRect x bodyTop (x + CandleWidth config)%int bodyBottom candleColor]
  ++
  (if ShowVolume config && (maxVolume >? fzero)%f64 then
     let volHeight :=
       to_int (Volume c / maxVolume * of_int (volumeHeight lay))%f64 in
     let volY := (volumeBottom lay - volHeight)%int in
     let volColor :=
       if (Close c <? Open c)%f64 then rgba 231 76 60 128
       else rgba 38 166 91 128 in
     [FilledRect x volY (x + CandleWidth config)%int (volumeBottom lay)
        volColor]
   else []).

(** [for i, c := range candles]. *)
Definition indexed {T : Type} (l : list T) : list (nat * T) :=
  combine (seq 0 (List.length l)) l.

Definition drawCandles (config : ChartConfig) (lay : Layout)
    (maxPrice priceRange maxVolume : F) (candles : list (Candlestick F))
  : list DrawCmd :=
  flat_map (fun ic => drawCandle config lay maxPrice priceRange maxVolume
                        (fst ic) (snd ic))
           (indexed candles).

(** [calculateMA]: the trailing mean of the closes at every index, 0
    where fewer than [period] bars are behind the index. *)
Definition calculateMA (candles : list (Candlestick F)) (period : Z)
  : list F :=
  map (fun i =>
         if Z.of_nat i <? (period - 1)%int then fzero
         else
           let sum :=
             fold_left
               (fun sum j =>
                  (sum + Close (at_ candles (i - Z.to_nat j)))%f64)
               (upto 0 (period - 1) 1) fzero in
           (sum / of_int period)%f64)
      (indices 0 (List.length candles)).

(** [drawMALine]: the state of the loop is the previous point and the
    segments drawn so far. *)
Definition maStep (lay : Layout) (maxPrice priceRange chartHeight : F)
    (c : RGBA) (acc : Z * Z * list DrawCmd) (iv : nat * F)
  : Z * Z * list DrawCmd :=
  let '(prevX, prevY, cmds) := acc in
  let '(i, val) := iv in
  if (val =? fzero)%f64 then acc
  else
    let x := (chartLeft lay + Z.of_nat i * totalCandleWidth lay
              + totalCandleWidth lay / 2)%int in
    let y := priceY (chartTop lay) maxPrice priceRange chartHeight val in
    let cmds :=
      if negb (prevX =? 0) && negb (prevY =? 0)
      then cmds ++ [LineBresenham prevX prevY x y c] else cmds in
    (x, y, cmds).

Definition drawMALine (ma : list F) (lay : Layout)
    (maxPrice priceRange chartHeight : F) (c : RGBA) : list DrawCmd :=
  snd (fold_left (maStep lay maxPrice priceRange chartHeight c)
         (indexed ma) (0, 0, [])).

(** Lines 177-183 and 605-610. *)
Definition drawMovingAverages (config : ChartConfig) (lay : Layout)
    (maxPrice priceRange : F) (candles : list (Candlestick F))
  : list DrawCmd :=
  if ShowMA config && (50 <? List.length candles)%nat then
    let ma20 := calculateMA candles 20 in
    let ma50 := calculateMA candles 50 in
    drawMALine ma20 lay maxPrice priceRange (of_int (chartHeight lay))
      colorMA20
    ++ drawMALine ma50 lay maxPrice priceRange (of_int (chartHeight lay))
         colorMA50
  else [].

(** [formatPrice]: the number of decimals of the label. *)
Definition formatPrice (price : F) : nat :=
  if (price >=? fconst 1000 1)%f64 then 2%nat
  else if (price >=? fconst 1 1)%f64 then 4%nat
  else if (price >=? fconst 1 100)%f64 then 6%nat
  else 8%nat.

Definition drawPriceScale (x top bottom : Z) (minPrice maxPrice : F)
    (c : RGBA) : list DrawCmd :=
  let steps := 5 in
  let priceStep := ((maxPrice - minPrice) / of_int steps)%f64 in
  let yStep := ((bottom - top) / steps)%int in
  map (fun i =>
         let price := (maxPrice - of_int i * priceStep)%f64 in
         let y := (top + i * yStep)%int in
         Text x (y + 4)%int (PriceText (formatPrice price) price) c)
      (upto 0 steps 1).

(** ** [GenerateCandlestickChart] *)

Definition GenerateCandlestickChart (candles : list (Candlestick F))
    (symbol interval : string) (config : ChartConfig)
  : outcome (list DrawCmd) :=
  if (List.length candles =? 0)%nat then Err "no candle data to render"
  else
    size <- newRGBA (Width config) (Height config) ;;
    let bgColor := if DarkMode config then colorBgDark else colorBgLight in
    let '(minPrice0, maxPrice0, maxVolume) := priceVolumeRange candles in
    let '(minPrice, maxPrice, priceRange) := padRange minPrice0 maxPrice0 in
    let lay := layout config 0 in
    let gridColor :=
      if DarkMode config then colorGridDark else colorGridLight in
    visible <- visibleCandles lay candles ;;
    let textColor :=
      if DarkMode config then colorTextDark else colorTextLight in
    lastCandle <- lastVisible visible ;;
    let priceColor :=
      if (Close lastCandle <? Open lastCandle)%f64 then colorBearish
      else colorBullish in
    pngEncode size
      ([Background (fst size) (snd size) bgColor;
        GridLines (chartLeft lay) (chartRight lay) (chartTop lay)
          (chartBottom lay) 5 gridColor]
       ++ drawCandles config lay maxPrice priceRange maxVolume visible
       ++ drawMovingAverages config lay maxPrice priceRange visible
       ++ drawPriceScale (chartRight lay + 5)%int (chartTop lay)
            (chartBottom lay) minPrice maxPrice textColor
       ++ [Text (chartLeft lay) 20 (Title symbol interval) textColor;
           Text (chartLeft lay + 200)%int 20
             (CurrentPrice (formatPrice (Close lastCandle))
                (Close lastCandle))
             priceColor;
           Text (chartRight lay - 150)%int 20 Timestamp textColor]).

(** ** [GenerateChartWithLevels] *)

(** Lines 511-522: the range is extended to a stop loss below it and to a
    take profit above it, the first of TP3, TP2 and TP1 that is. *)
Definition extendRange (levels : option TradeLevels)
    (minPrice maxPrice : F) : F * F :=
  match levels with
  | None => (minPrice, maxPrice)
  | Some lv =>
      (if (SL lv >? fzero)%f64 && (SL lv <? minPrice)%f64
       then (SL lv * fconst 995 1000)%f64 else minPrice,
       if (TP3 lv >? fzero)%f64 && (TP3 lv >? maxPrice)%f64
       then (TP3 lv * fconst 1005 1000)%f64
       else if (TP2 lv >? fzero)%f64 && (TP2 lv >? maxPrice)%f64
       then (TP2 lv * fconst 1005 1000)%f64
       else if (TP1 lv >? fzero)%f64 && (TP1 lv >? maxPrice)%f64
       then (TP1 lv * fconst 1005 1000)%f64
       else maxPrice)
  end.

(** One block of lines 615-647: the line of a level that is set, with its
    label. *)
Definition drawLevel (lay : Layout) (maxPrice priceRange : F)
    (name : string) (level : F) (c : RGBA) : list DrawCmd :=
  if (level >? fzero)%f64 then
    let y := priceY (chartTop lay) maxPrice priceRange
               (of_int (chartHeight lay)) level in
    [LevelLine (chartLeft lay) (chartRight lay) y c;
     Text (chartRight lay + 5)%int (y + 4)%int (LevelText name level) c]
  else [].

Definition drawLevels (lay : Layout) (maxPrice priceRange : F)
    (levels : option TradeLevels) : list DrawCmd :=
  match levels with
  | None => []
  | Some lv =>
      drawLevel lay maxPrice priceRange "ENTRY" (Entry lv) colorEntry
      ++ drawLevel lay maxPrice priceRange "SL" (SL lv) colorSL
      ++ drawLevel lay maxPrice priceRange "TP1" (TP1 lv) colorTP
      ++ drawLevel lay maxPrice priceRange "TP2" (TP2 lv) colorTP
      ++ drawLevel lay maxPrice priceRange "TP3" (TP3 lv) colorTP
  end.

Definition levelsConfig : ChartConfig :=
  {| Width := 1400; Height := 700;
     Padding := Padding DefaultChartConfig;
     CandleWidth := CandleWidth DefaultChartConfig;
     CandleGap := CandleGap DefaultChartConfig;
     ShowVolume := ShowVolume DefaultChartConfig;
     ShowMA := ShowMA DefaultChartConfig;
     MAperiods := MAperiods DefaultChartConfig;
     DarkMode := DarkMode DefaultChartConfig |}.

Definition GenerateChartWithLevels (candles : list (Candlestick F))
    (symbol interval : string) (levels : option TradeLevels)
  : outcome (list DrawCmd) :=
  if (List.length candles =? 0)%nat then Err "no candle data to render"
  else
    let config := levelsConfig in
    size <- newRGBA (Width config) (Height config) ;;
    let '(minPrice0, maxPrice0, maxVolume) := priceVolumeRange candles in
    let '(minPrice1, maxPrice1) := extendRange levels minPrice0 maxPrice0 in
    let '(minPrice, maxPrice, priceRange) := padRange minPrice1 maxPrice1 in
    let lay := layout config 80 in
    visible <- visibleCandles lay candles ;;
    lastCandle <- lastVisible visible ;;
    let priceColor :=
      if (Close lastCandle <? Open lastCandle)%f64 then colorBearish
      else colorBullish in
    pngEncode size
      ([Background (fst size) (snd size) colorBgDark;
        GridLines (chartLeft lay) (chartRight lay) (chartTop lay)
          (chartBottom lay) 5 colorGridDark]
       ++ drawCandles config lay maxPrice priceRange maxVolume visible
       ++ drawMovingAverages config lay maxPrice priceRange visible
       ++ drawLevels lay maxPrice priceRange levels
       ++ drawPriceScale (chartRight lay + 5)%int (chartTop lay)
            (chartBottom lay) minPrice maxPrice colorTextDark
       ++ [Text (chartLeft lay) 20 (EntryTitle symbol interval)
             colorTextDark;
           Text (chartLeft lay + 300)%int 20
             (CurrentPrice (formatPrice (Close lastCandle))
                (Close lastCandle))
             priceColor;
           Text (chartRight lay - 150)%int 20 Timestamp colorTextDark;
           Text (chartLeft lay) (chartBottom lay + 50)%int Legend
             colorTextDark]).

End Chart.

Arguments Label F : clear implicits.
Arguments DrawCmd F : clear implicits.
Arguments TradeLevels F : clear implicits.

(** ** Reading a rendered chart *)

(** The pixels written by the calls whose loops run on integers only; the
    fill of the canvas, the text and the slanted segments are left to their
    libraries. *)
Definition pixelsOf {F : Type} (cmd : DrawCmd F) : option (list Pixel) :=
  match cmd with
  | GridLines x1 x2 y1 y2 count c =>
      Some (drawHorizontalGridLines x1 x2 y1 y2 count c)
  | Line x1 y1 x2 y2 c => Some (drawLine x1 y1 x2 y2 c)
  | FilledRect x1 y1 x2 y2 c => Some (drawFilledRect x1 y1 x2 y2 c)
  | LevelLine x1 x2 y c => Some (drawHorizontalLevelLine x1 x2 y c)
  | _ => None
  end.

Definition pixelCol (p : Pixel) : Z := fst (fst p).
Definition pixelRow (p : Pixel) : Z := snd (fst p).

(** [drawLine] is called for the wick of a candle and for nothing else, so
    the wicks count the candles of a chart. *)
Definition isWick {F : Type} (cmd : DrawCmd F) : bool :=
  match cmd with Line _ _ _ _ _ => true | _ => false end.

Definition isGrid {F : Type} (cmd : DrawCmd F) : bool :=
  match cmd with GridLines _ _ _ _ _ _ => true | _ => false end.

Definition isLevelLine {F : Type} (cmd : DrawCmd F) : bool :=
  match cmd with LevelLine _ _ _ _ => true | _ => false end.

Definition isSegment {F : Type} (cmd : DrawCmd F) : bool :=
  match cmd with LineBresenham _ _ _ _ _ => true | _ => false end.

(** The segments of the moving average drawn in color [c]. *)
Definition maSegments {F : Type} (c : RGBA) (cmds : list (DrawCmd F))
  : list (DrawCmd F) :=
  filter (fun cmd => match cmd with
                     | LineBresenham _ _ _ _ c' => RGBA_eqb c c'
                     | _ => false
                     end) cmds.

(** A configuration with another list of periods and nothing else changed. *)
Definition withPeriods (config : ChartConfig) (periods : list Z)
  : ChartConfig :=
  {| Width := Width config; Height := Height config;
     Padding := Padding config;
     CandleWidth := CandleWidth config; CandleGap := CandleGap config;
     ShowVolume := ShowVolume config; ShowMA := ShowMA config;
     MAperiods := periods; DarkMode := DarkMode config |}.

(** Every close is above the close before it. *)
Definition deltasPositive {F : Type} {fl : Float64 F}
    (candles : list (Candlestick F)) : bool :=
  forallb (fun i =>
             (Close (at_ candles i) - Close (at_ candles (i - 1)) >? fzero)%f64)
          (indices 1 (List.length candles)).

(** The last 14 close-to-close changes are gains. *)
Definition risingDeltas {F : Type} {fl : Float64 F}
    (candles : list (Candlestick F)) : Prop :=
  forall i, (List.length candles - 14 <= i < List.length candles)%nat ->
    (Close (at_ candles i) - Close (at_ candles (i - 1)) >? fzero)%f64 = true.


(** ** Inputs the program is run on *)

Definition bar {F : Type} {fl : Float64 F} (o h l c : Z) : Candlestick F :=
  {| OpenTime := 0; Open := of_int o; High := of_int h; Low := of_int l;
     Close := of_int c; Volume := of_int 1; CloseTime := 0 |}.

(** [n] bars that rise by one from bar to bar. *)
Definition ramp {F : Type} {fl : Float64 F} (n : nat) : list (Candlestick F) :=
  map (fun k => let z := Z.of_nat k in
                bar (100 + z) (102 + z) (99 + z) (101 + z))
      (seq 0 n).

(** A canvas whose chart area is 4 pixels wide, narrower than one candle. *)
Definition narrowConfig : ChartConfig :=
  {| Width := 100; Height := 100; Padding := 48;
     CandleWidth := 4; CandleGap := 2;
     ShowVolume := true; ShowMA := true;
     MAperiods := [20; 50]; DarkMode := true |}.


(** The levels of a short trade: the stop above the entry, the target
    below. *)
Definition shortLevels : TradeLevels float :=
  {| Entry := of_int 105; SL := of_int 120; TP1 := of_int 95;
     TP2 := fzero; TP3 := fzero |}.

(** Where a call to [drawText] puts its text, and the price of a label of
    the price scale. *)
Definition textAt {F : Type} (cmd : DrawCmd F) : option (Z * Z) :=
  match cmd with Text x y _ _ => Some (x, y) | _ => None end.

Definition labelPrice {F : Type} (cmd : DrawCmd F) : option F :=
  match cmd with Text _ _ (PriceText _ p) _ => Some p | _ => None end.

(** The values of a moving average that are present. *)
Definition present {F : Type} {fl : Float64 F} (ma : list F) : list F :=
  filter (fun v => negb (v =? fzero)%f64) ma.

(** ** Time frames ([binance.go], [yahoo.go], [forex.go]) *)

(** [BinanceInterval], [YahooInterval] and [TradingMode] are strings. *)
Definition Interval1m : string := "1m".
Definition Interval5m : string := "5m".
Definition Interval15m : string := "15m".
Definition Interval30m : string := "30m".
Definition Interval1h : string := "1h".
Definition Interval4h : string := "4h".
Definition Interval1d : string := "1d".
Definition Interval1w : string := "1w".

Definition YahooInterval1m : string := "1m".
Definition YahooInterval2m : string := "2m".
Definition YahooInterval5m : string := "5m".
Definition YahooInterval15m : string := "15m".
Definition YahooInterval30m : string := "30m".
Definition YahooInterval90m : string := "90m".
Definition YahooInterval1h : string := "1h".
Definition YahooInterval1d : string := "1d".
Definition YahooInterval1wk : string := "1wk".
Definition YahooInterval1mo : string := "1mo".
Definition YahooInterval3mo : string := "3mo".

Definition TradingModeScalping : string := "scalping".
Definition TradingModeSwing : string := "swing".
Definition TradingModeIntraday : string := "intraday".

(** A [switch] on a string: the first case equal to the subject, else the
    default. *)
Fixpoint switch {T : Type} (subject : string) (cases : list (string * T))
    (default : T) : T :=
  match cases with
  | [] => default
  | (k, v) :: rest =>
      if String.eqb subject k then v else switch subject rest default
  end.

Definition GetTimeframesForMode (mode : string) : list string :=
  switch mode
    [(TradingModeScalping,
      [Interval5m; Interval15m; Interval1h; Interval4h; Interval1d]);
     (TradingModeSwing,
      [Interval5m; Interval15m; Interval1h; Interval4h; Interval1d;
       Interval1w]);
     (TradingModeIntraday,
      [Interval5m; Interval15m; Interval1h; Interval4h; Interval1d;
       Interval1w])]
    [Interval5m; Interval15m; Interval1h; Interval4h; Interval1d; Interval1w].

Definition GetTimeframeName (interval : string) : string :=
  switch interval
    [(Interval1m, "1 Minute"); (Interval5m, "5 Minutes");
     (Interval15m, "15 Minutes"); (Interval30m, "30 Minutes");
     (Interval1h, "1 Hour"); (Interval4h, "4 Hours");
     (Interval1d, "1 Day"); (Interval1w, "1 Week")]%string
    interval.

Definition ConvertYahooToBinanceInterval (yi : string) : string :=
  switch yi
    [(YahooInterval1m, Interval1m); (YahooInterval2m, "2m");
     (YahooInterval5m, Interval5m); (YahooInterval15m, Interval15m);
     (YahooInterval30m, Interval30m); (YahooInterval90m, "90m");
     (YahooInterval1h, Interval1h); (YahooInterval1d, Interval1d);
     (YahooInterval1wk, Interval1w); (YahooInterval1mo, "1M");
     (YahooInterval3mo, "3M")]%string
    Interval1h.

Definition ConvertBinanceToYahooInterval (bi : string) : string :=
  switch bi
    [(Interval1m, YahooInterval1m); (Interval5m, YahooInterval5m);
     (Interval15m, YahooInterval15m); (Interval30m, YahooInterval30m);
     (Interval1h, YahooInterval1h); (Interval4h, YahooInterval1h);
     (Interval1d, YahooInterval1d); (Interval1w, YahooInterval1wk)]
    YahooInterval1h.

Definition GetYahooTimeframeName (interval : string) : string :=
  switch interval
    [(YahooInterval1m, "1 Minute"); (YahooInterval2m, "2 Minutes");
     (YahooInterval5m, "5 Minutes"); (YahooInterval15m, "15 Minutes");
     (YahooInterval30m, "30 Minutes"); (YahooInterval90m, "90 Minutes");
     (YahooInterval1h, "1 Hour"); (YahooInterval1d, "1 Day");
     (YahooInterval1wk, "1 Week"); (YahooInterval1mo, "1 Month");
     (YahooInterval3mo, "3 Months")]%string
    interval.

(** The same list for every mode. *)
Definition GetForexTimeframesForMode (mode : string) : list string :=
  let all :=
    [YahooInterval1m; YahooInterval2m; YahooInterval5m; YahooInterval15m;
     YahooInterval30m; YahooInterval1h; YahooInterval90m; YahooInterval1d;
     YahooInterval1wk; YahooInterval1mo; YahooInterval3mo] in
  switch mode
    [(TradingModeScalping, all); (TradingModeSwing, all);
     (TradingModeIntraday, all)]
    all.

(** ** Fetching and summarizing every time frame *)

Section Fetch.

Context {F : Type} {fl : Float64 F}.

(** The retrieval of the bars of a symbol ([FetchCandlesticks],
    [FetchYahooCandlesticks]): a call to the provider, taken as given. *)
Variable fetch : string -> string -> Z -> outcome (list (Candlestick F)).

(** The loop of [FetchMultiTimeframeData] over the time frames that are
    left, with the summaries appended so far. *)
Fixpoint fetchSummaries (symbol : string) (candleLimit : Z)
    (timeframes : list string) (summaries : list (CandleDataSummary F))
  : outcome (list (CandleDataSummary F)) :=
  match timeframes with
  | [] => Ok summaries
  | tf :: rest =>
      match fetch symbol tf candleLimit with
      | Ok candles =>
          fetchSummaries symbol candleLimit rest
            (summaries ++ [AnalyzeCandlestickData candles tf])
      | Err msg => Err ("failed to fetch " ++ tf ++ ": " ++ msg)%string
      | Panic msg => Panic msg
      end
  end.

Definition FetchMultiTimeframeData (symbol mode : string) (candleLimit : Z)
  : outcome (list (CandleDataSummary F)) :=
  fetchSummaries symbol candleLimit (GetTimeframesForMode mode) [].

(** The loop of [FetchForexMultiTimeframeData]. *)
Fixpoint fetchForexSummaries (symbol : string) (candleLimit : Z)
    (timeframes : list string) (summaries : list (CandleDataSummary F))
  : outcome (list (CandleDataSummary F)) :=
  match timeframes with
  | [] => Ok summaries
  | tf :: rest =>
      match fetch symbol tf candleLimit with
      | Ok candles =>
          fetchForexSummaries symbol candleLimit rest
            (summaries
             ++ [AnalyzeCandlestickData candles
                   (ConvertYahooToBinanceInterval tf)])
      | Err msg => Err ("failed to fetch " ++ tf ++ ": " ++ msg)%string
      | Panic msg => Panic msg
      end
  end.

Definition FetchForexMultiTimeframeData (symbol mode : string)
    (candleLimit : Z) : outcome (list (CandleDataSummary F)) :=
  fetchForexSummaries symbol candleLimit (GetForexTimeframesForMode mode) [].

(** [ChartData]: the image stands as the calls that paint it. *)
Record ChartData : Type := {
  CInterval : string;
  ImageData : list (DrawCmd F);
  Candles : list (Candlestick F)
}.

(** The loop of [GenerateMultiTimeframeCharts]. *)
Fixpoint generateCharts (symbol : string) (candleLimit : Z)
    (config : ChartConfig) (timeframes : list string)
    (charts : list ChartData) : outcome (list ChartData) :=
  match timeframes with
  | [] => Ok charts
  | tf :: rest =>
      match fetch symbol tf candleLimit with
      | Ok candles =>
          match GenerateCandlestickChart candles symbol tf config with
          | Ok imgData =>
              generateCharts symbol candleLimit config rest
                (charts ++ [{| CInterval := tf; ImageData := imgData;
                               Candles := candles |}])
          | Err msg =>
              Err ("failed to generate " ++ tf ++ " chart: " ++ msg)%string
          | Panic msg => Panic msg
          end
      | Err msg => Err ("failed to fetch " ++ tf ++ " data: " ++ msg)%string
      | Panic msg => Panic msg
      end
  end.

Definition GenerateMultiTimeframeCharts (symbol mode : string)
    (candleLimit : Z) : outcome (list ChartData) :=
  generateCharts symbol candleLimit DefaultChartConfig
    (GetTimeframesForMode mode) [].

End Fetch.

Arguments ChartData F : clear implicits.

(** ** Bresenham's line ([drawLineBresenham]) *)

(** [abs]: the negation of the smallest integer wraps to itself. *)
Definition abs (x : Z) : Z := if x <? 0 then Int.wrap (- x) else x.

(** The loop [for { ... }] of [drawLineBresenham], which has no bound of its
    own, run for at most [fuel] iterations: [None] when the fuel is spent
    before the loop breaks, otherwise the pixels in the order they are
    set. *)
Fixpoint bresenhamLoop (fuel : nat) (x0 y0 x1 y1 dx dy sx sy err : Z)
    (c : RGBA) : option (list Pixel) :=
  match fuel with
  | 0%nat => None
  | S fuel =>
      if (x0 =? x1) && (y0 =? y1) then Some [(x0, y0, c)]
      else
        let e2 := (err * 2)%int in
        let stepX := e2 >? Int.wrap (- dy) in
        let err1 := if stepX then (err - dy)%int else err in
        let x0' := if stepX then (x0 + sx)%int else x0 in
        let stepY := e2 <? dx in
        let err2 := if stepY then (err1 + dx)%int else err1 in
        let y0' := if stepY then (y0 + sy)%int else y0 in
        option_map (cons (x0, y0, c))
          (bresenhamLoop fuel x0' y0' x1 y1 dx dy sx sy err2 c)
  end.

Definition drawLineBresenham (fuel : nat) (x0 y0 x1 y1 : Z) (c : RGBA)
  : option (list Pixel) :=
  let dx := abs (x1 - x0)%int in
  let dy := abs (y1 - y0)%int in
  let sx := if x0 >=? x1 then -1 else 1 in
  let sy := if y0 >=? y1 then -1 else 1 in
  let err := (dx - dy)%int in
  bresenhamLoop fuel x0 y0 x1 y1 dx dy sx sy err c.

(** Two pixels that touch, by a side or by a corner. *)
Definition adjacent (p q : Pixel) : bool :=
  (Z.abs (pixelCol q - pixelCol p) <=? 1)
  && (Z.abs (pixelRow q - pixelRow p) <=? 1)
  && negb ((pixelCol q =? pixelCol p) && (pixelRow q =? pixelRow p)).

(** Every pixel of the list touches the next one. *)
Fixpoint connected (pixels : list Pixel) : bool :=
  match pixels with
  | p :: (q :: _) as rest => adjacent p q && connected rest
  | _ => true
  end.

From Stdlib Require Qabs.

(** ** [CalculateTechnicalSummary] *)

(** [math.Abs], the one operation of [float64] that only this function
    uses. *)
Class Float64Abs (F : Type) : Type := fabs : F -> F.

#[export] Instance binary64_abs : Float64Abs float := PrimFloat.abs.
#[export] Instance exactQ_abs : Float64Abs Q := Qabs.Qabs.

(** The text the function returns, before formatting: either
    "Insufficient data" or the four fields of
    "Trend: %s | Volatility: %s | Momentum: %s | RSI: %.1f". *)
Inductive TechnicalSummary (F : Type) : Type :=
| InsufficientData
| Technical (trend volatility momentum : string) (rsi : F).

Arguments InsufficientData {F}.
Arguments Technical {F} trend volatility momentum rsi.

Section Technical.

Context {F : Type} {fl : Float64 F} {fa : Float64Abs F}.

(** The loop on the bodies of the last 14 bars. *)
Definition momentumStep (candles : list (Candlestick F)) (acc : F * F)
    (i : nat) : F * F :=
  let '(gains, losses) := acc in
  let change := (Close (at_ candles i) - Open (at_ candles i))%f64 in
  if (change >? fzero)%f64 then ((gains + change)%f64, losses)
  else (gains, (losses + fabs change)%f64).

Definition bodyGainsLosses (candles : list (Candlestick F)) : F * F :=
  let len := List.length candles in
  fold_left (momentumStep candles) (indices (len - 14) len) (fzero, fzero).

Definition momentumRSI (candles : list (Candlestick F)) : F :=
  let '(gains, losses) := bodyGainsLosses candles in
  let rs := if (losses >? fzero)%f64 then (gains / losses)%f64
            else fconst 1 1 in
  (fconst 100 1 - fconst 100 1 / (fconst 1 1 + rs))%f64.

Definition momentumOf (rsi : F) : string :=
  if (rsi >? fconst 70 1)%f64 then "OVERBOUGHT"
  else if (rsi <? fconst 30 1)%f64 then "OVERSOLD"
  else if (rsi >? fconst 55 1)%f64 then "BULLISH"
  else if (rsi <? fconst 45 1)%f64 then "BEARISH"
  else "NEUTRAL".

Definition CalculateTechnicalSummary (candles : list (Candlestick F))
  : TechnicalSummary F :=
  let len := List.length candles in
  if (len <? 50)%nat then InsufficientData
  else
    let last := at_ candles (len - 1) in
    let ma20 := calculateMA candles 20 in
    let ma50 := calculateMA candles 50 in
    let lastMA20 := nth (List.length ma20 - 1) ma20 fzero in
    let lastMA50 := nth (List.length ma50 - 1) ma50 fzero in
    let trend :=
      if (Close last >? lastMA20)%f64 && (lastMA20 >? lastMA50)%f64
      then "BULLISH"%string
      else if (Close last <? lastMA20)%f64 && (lastMA20 <? lastMA50)%f64
      then "BEARISH"%string
      else "NEUTRAL"%string in
    let atrSum :=
      fold_left
        (fun sum i =>
           (sum + (High (at_ candles i) - Low (at_ candles i)))%f64)
        (indices (len - 14) len) fzero in
    let atr := (atrSum / fconst 14 1)%f64 in
    let avgPrice := Close last in
    let volatility :=
      if (atr / avgPrice >? fconst 2 100)%f64 then "HIGH"%string
      else if (atr / avgPrice >? fconst 1 100)%f64 then "MEDIUM"%string
      else "LOW"%string in
    let rsi := momentumRSI candles in
    Technical trend volatility (momentumOf rsi) rsi.

End Technical.

(** ** The bars of a Yahoo response ([FetchYahooCandlesticks]) *)

(** The part of [FetchYahooCandlesticks] that follows the parsing of the
    response: the time stamps and the first quote of the first result are
    turned into bars, and the bars are cut to the limit. *)

Section YahooBars.

Context {F : Type} {fl : Float64 F}.

(** The arrays of the quote; a null of the response is a 0. *)
Record YahooQuote : Type := {
  QOpen : list F;
  QHigh : list F;
  QLow : list F;
  QClose : list F;
  QVolume : list Z
}.

(** The seconds added to the open time for the close time; an interval
    that is none of the cases of the [switch] adds nothing. *)
Definition intervalSeconds (interval : string) : option Z :=
  switch interval
    [(YahooInterval1m, Some 60); (YahooInterval2m, Some 120);
     (YahooInterval5m, Some 300); (YahooInterval15m, Some 900);
     (YahooInterval30m, Some 1800); (YahooInterval90m, Some 5400);
     (YahooInterval1h, Some 3600); (YahooInterval1d, Some 86400);
     (YahooInterval1wk, Some 604800); (YahooInterval1mo, Some 2592000);
     (YahooInterval3mo, Some 7776000)]
    None.

(** The first test of the loop body: an array of prices ends before [i]. *)
Definition rowMissing (quote : YahooQuote) (i : nat) : bool :=
  (List.length (QOpen quote) <=? i)%nat
  || (List.length (QHigh quote) <=? i)%nat
  || (List.length (QLow quote) <=? i)%nat
  || (List.length (QClose quote) <=? i)%nat.

(** The second test: the four prices are 0. *)
Definition rowEmpty (quote : YahooQuote) (i : nat) : bool :=
  (nth i (QOpen quote) fzero =? fzero)%f64
  && (nth i (QHigh quote) fzero =? fzero)%f64
  && (nth i (QLow quote) fzero =? fzero)%f64
  && (nth i (QClose quote) fzero =? fzero)%f64.

(** One iteration of the loop on the time stamps. *)
Definition yahooStep (quote : YahooQuote) (interval : string)
    (candles : list (Candlestick F)) (it : nat * Z)
  : list (Candlestick F) :=
  let '(i, timestamp) := it in
  if rowMissing quote i then candles
  else if rowEmpty quote i then candles
  else
    let openPrice := nth i (QOpen quote) fzero in
    let highPrice := nth i (QHigh quote) fzero in
    let lowPrice := nth i (QLow quote) fzero in
    let closePrice := nth i (QClose quote) fzero in
    let openPrice :=
      if (openPrice =? fzero)%f64 && (0 <? List.length candles)%nat
      then Close (at_ candles (List.length candles - 1))
      else openPrice in
    let closePrice :=
      if (closePrice =? fzero)%f64 && (openPrice >? fzero)%f64
      then openPrice else closePrice in
    let highPrice :=
      if (highPrice =? fzero)%f64 then openPrice else highPrice in
    let lowPrice :=
      if (lowPrice =? fzero)%f64 then openPrice else lowPrice in
    let volume :=
      if (i <? List.length (QVolume quote))%nat
      then of_int (nth i (QVolume quote) 0) else fzero in
    let closeTimeUnix :=
      match intervalSeconds interval with
      | Some seconds => (timestamp + seconds)%int
      | None => timestamp
      end in
    candles ++ [{| OpenTime := timestamp; Open := openPrice;
                   High := highPrice; Low := lowPrice; Close := closePrice;
                   Volume := volume; CloseTime := closeTimeUnix |}].

(** The loop. *)
Definition yahooRows (timestamps : list Z) (quote : YahooQuote)
    (interval : string) : list (Candlestick F) :=
  fold_left (yahooStep quote interval) (indexed timestamps) [].

(** The bars returned: the last [limit] of the loop's, 200 for a limit
    below 1. *)
Definition yahooCandles (timestamps : list Z) (quote : YahooQuote)
    (interval : string) (limit : Z) : list (Candlestick F) :=
  let limit := if limit <? 1 then 200 else limit in
  let candles := yahooRows timestamps quote interval in
  if Z.of_nat (List.length candles) >? limit
  then skipn (Z.to_nat (Int.sub (Z.of_nat (List.length candles)) limit))
         candles
  else candles.

End YahooBars.

Arguments YahooQuote F : clear implicits.

(** A response of four rows: the second is empty, the third has a high
    only. *)
Definition sampleTimestamps : list Z := [0; 60; 120; 180].

Definition sampleQuote : YahooQuote float :=
  {| QOpen := [1; 0; 0; 4]%float; QHigh := [2; 0; 3; 5]%float;
     QLow := [1; 0; 0; 3]%float; QClose := [2; 0; 0; 4]%float;
     QVolume := [] |}.

(** * Properties *)

(** ** The indicator engine *)

Section AnalysisFacts.

Context {F : Type} {fl : Float64 F}.

Lemma analyze_nonempty (candles : list (Candlestick F)) (interval : string) :
  candles <> [] ->
  CandleCount (AnalyzeCandlestickData candles interval)
  = Z.of_nat (List.length candles).
Proof.
  intros Hne. unfold AnalyzeCandlestickData.
  destruct candles as [|c rest]; [congruence|].
  cbn [List.length Nat.eqb].
  destruct (scanHighLowVolume (c :: rest)) as [[hi lo] vol].
  reflexivity.
Qed.

Lemma rsi_short (candles : list (Candlestick F)) (interval : string) :
  (List.length candles < 15)%nat ->
  RSI (AnalyzeCandlestickData candles interval) = fzero.
Proof.
  intros Hlen. unfold AnalyzeCandlestickData.
  destruct (Nat.eqb_spec (List.length candles) 0) as [|Hn]; [reflexivity|].
  destruct (scanHighLowVolume candles) as [[hi lo] vol]. cbn [RSI].
  destruct (Nat.leb_spec 15 (List.length candles)); [lia|reflexivity].
Qed.

Lemma rsi_long (candles : list (Candlestick F)) (interval : string) :
  (15 <= List.length candles)%nat ->
  RSI (AnalyzeCandlestickData candles interval) = rsi14 candles.
Proof.
  intros Hlen. unfold AnalyzeCandlestickData.
  destruct (Nat.eqb_spec (List.length candles) 0) as [|Hn]; [lia|].
  destruct (scanHighLowVolume candles) as [[hi lo] vol]. cbn [RSI].
  destruct (Nat.leb_spec 15 (List.length candles)); [reflexivity|lia].
Qed.

(** A run of gains leaves the sum of the losses where it was. *)
Lemma losses_unchanged (candles : list (Candlestick F)) (idx : list nat) :
  forall acc,
    (forall i, In i idx ->
       (Close (at_ candles i) - Close (at_ candles (i - 1)) >? fzero)%f64
       = true) ->
    snd (fold_left (rsiStep candles) idx acc) = snd acc.
Proof.
  induction idx as [|i idx IH]; intros [gains losses] Hup; [reflexivity|].
  cbn [fold_left]. rewrite IH by (intros j Hj; apply Hup; now right).
  unfold rsiStep. rewrite (Hup i) by now left. reflexivity.
Qed.

Lemma lastCandles_length (candles : list (Candlestick F)) :
  List.length (lastCandles candles) = Nat.min 10 (List.length candles).
Proof.
  unfold lastCandles, indices, startIdx.
  rewrite length_map, length_seq. lia.
Qed.

Lemma lastCandles_nth (candles : list (Candlestick F)) (k : nat) d :
  (k < Nat.min 10 (List.length candles))%nat ->
  nth k (lastCandles candles) d
  = simpleCandle candles (List.length candles - 10 + k).
Proof.
  intros Hk. unfold lastCandles, indices, startIdx.
  rewrite (nth_indep _ d (simpleCandle candles 0))
    by (rewrite length_map, length_seq; lia).
  rewrite map_nth, seq_nth by lia. reflexivity.
Qed.

Lemma analyze_lastCandles (candles : list (Candlestick F)) interval :
  candles <> [] ->
  LastCandles (AnalyzeCandlestickData candles interval)
  = lastCandles candles.
Proof.
  intros Hne. unfold AnalyzeCandlestickData.
  destruct candles as [|c rest]; [congruence|].
  cbn [List.length Nat.eqb].
  destruct (scanHighLowVolume (c :: rest)) as [[hi lo] vol].
  reflexivity.
Qed.

End AnalysisFacts.

(** Claim C6. On an empty bar sequence [AnalyzeCandlestickData] returns the
    zero summary, whose [CandleCount] is 0, and both renders return the
    error "no candle data to render" and no image. The count is 0 for no
    other input. *)
Theorem empty_input_sentinel_and_error (F : Type) (fl : Float64 F) (symbol interval : string)
    (config : ChartConfig) (levels : option (TradeLevels F)) :
  AnalyzeCandlestickData (F := F) [] interval = zeroSummary
  /\ CandleCount (AnalyzeCandlestickData (F := F) [] interval) = 0
  /\ (forall candles : list (Candlestick F),
        CandleCount (AnalyzeCandlestickData candles interval) = 0
        <-> candles = [])
  /\ GenerateCandlestickChart (F := F) [] symbol interval config
     = Err "no candle data to render"
  /\ GenerateChartWithLevels (F := F) [] symbol interval levels
     = Err "no candle data to render".
Proof.
  repeat split; try reflexivity.
  - intros Hz. destruct candles as [|c rest]; [reflexivity|].
    rewrite analyze_nonempty in Hz by discriminate.
    cbn [List.length] in Hz. lia.
  - intros ->. reflexivity.
Qed.

(** Claim C1, as the code has it. With exactly 14 bars the RSI is left at
    0, whatever the bars: the loop reads [candles[i-1]] and is guarded by
    [len(candles) >= 15]. With at least 15 bars whose last 14 close-to-close
    changes are all gains, the RSI is exactly 100. *)
Theorem rsi_requires_fifteen_bars : 
  (forall (candles : list (Candlestick float)) interval,
     List.length candles = 14%nat ->
     RSI (AnalyzeCandlestickData candles interval) = 0%float)
  /\
  (forall (candles : list (Candlestick float)) interval,
     (15 <= List.length candles)%nat ->
     risingDeltas candles ->
     RSI (AnalyzeCandlestickData candles interval) = 100%float).
Proof.
  split; intros candles interval Hlen.
  - rewrite rsi_short by lia. reflexivity.
  - intros Hup. rewrite rsi_long by exact Hlen.
    unfold rsi14.
    pose proof (losses_unchanged candles
                  (indices (List.length candles - 14) (List.length candles))
                  (fzero, fzero)) as Hl.
    fold (gainsLosses candles) in Hl.
    destruct (gainsLosses candles) as [gains losses].
    cbn [snd] in Hl. rewrite Hl; [reflexivity|].
    intros i Hi. apply Hup. unfold indices in Hi. apply in_seq in Hi. lia.
Qed.

(** Claim C1 at 14 and at 15 rising bars. *)
Lemma rsi_requires_fifteen_bars_witness :
  RSI (AnalyzeCandlestickData (ramp (F := float) 14) "1h") = 0%float
  /\ RSI (AnalyzeCandlestickData (ramp (F := float) 15) "1h") = 100%float.
Proof.
  split.
  - apply (proj1 rsi_requires_fifteen_bars). reflexivity.
  - apply (proj2 rsi_requires_fifteen_bars).
    + vm_compute. lia.
    + intros i Hi. 
      assert (Hin : In i (indices 1 15)).
      { unfold indices. apply in_seq. cbn in Hi. lia. }
      assert (Hall : deltasPositive (ramp (F := float) 15) = true) by (vm_compute; reflexivity).
      unfold deltasPositive in Hall. rewrite forallb_forall in Hall.
      apply Hall. exact Hin.
Defined.

(** Claim C1 as stated fails: 14 bars with every close above the one
    before have an RSI of 0, which is not 100. *)
Lemma rsi_fourteen_bars_counterexample :
  List.length (ramp (F := float) 14) = 14%nat
  /\ deltasPositive (ramp (F := float) 14) = true
  /\ RSI (AnalyzeCandlestickData (ramp (F := float) 14) "1h") = 0%float
  /\ (RSI (AnalyzeCandlestickData (ramp (F := float) 14) "1h") =? fconst 100 1)%f64
     = false.
Proof. repeat split; vm_compute; reflexivity. Qed.

(** Claim C8. With more than 10 bars the summary keeps 10 candles and the
    change of the first of them is computed against the close of the bar
    just before the window in the full sequence. In general the change of a
    kept candle is left at 0 only for the very first bar of the sequence
    and is computed against the preceding close everywhere else. *)
Theorem change_against_previous_close (F : Type) (fl : Float64 F)
    (candles : list (Candlestick F)) (interval : string) (d : CandleSimple F) :
  let len := List.length candles in
  let window := LastCandles (AnalyzeCandlestickData candles interval) in
  let pct (i : nat) :=
    ((Close (at_ candles i) - Close (at_ candles (i - 1)))
     / Close (at_ candles (i - 1)) * fconst 100 1)%f64 in
  ((10 < len)%nat ->
   List.length window = 10%nat
   /\ Change (nth 0 window d) = pct (len - 10)%nat)
  /\ (forall k, (k < List.length window)%nat ->
        Change (nth k window d)
        = if (len - 10 + k =? 0)%nat then fzero else pct (len - 10 + k)%nat).
Proof.
  assert (Hcases : candles = [] \/ candles <> [])
    by (destruct candles; [now left|right; discriminate]).
  destruct Hcases as [->|Hne]; [cbn; split; intros; lia|].
  intros len window pct.
  subst window. rewrite analyze_lastCandles by exact Hne.
  assert (Hk : forall k, (k < List.length (lastCandles candles))%nat ->
             Change (nth k (lastCandles candles) d)
             = if (len - 10 + k =? 0)%nat then fzero
               else pct (len - 10 + k)%nat).
  { intros k Hk. rewrite lastCandles_length in Hk.
    rewrite lastCandles_nth by exact Hk.
    fold len. unfold simpleCandle. cbn [Change].
    destruct (Nat.ltb_spec 0 (len - 10 + k));
      destruct (Nat.eqb_spec (len - 10 + k) 0); try lia; reflexivity. }
  split; [|exact Hk].
  intros Hlen.
  assert (Hwin : List.length (lastCandles candles) = 10%nat)
    by (rewrite lastCandles_length; fold len; lia).
  split; [exact Hwin|].
  rewrite (Hk 0%nat) by lia. rewrite Nat.add_0_r.
  destruct (Nat.eqb_spec (len - 10) 0); [lia|reflexivity].
Qed.

(** Claim C8 on 12 bars: the first kept candle is bar 2 and is compared
    with bar 1. *)
Lemma change_against_previous_close_witness :
  Change (nth 0 (LastCandles (AnalyzeCandlestickData (ramp (F := float) 12) "1h"))
            (simpleCandle (ramp 12) 0))
  = ((Close (at_ (ramp (F := float) 12) 2) - Close (at_ (ramp 12) 1))
     / Close (at_ (ramp 12) 1) * fconst 100 1)%f64.
Proof.
  apply (proj1 (change_against_previous_close float binary64 (ramp 12) "1h"
                  (simpleCandle (ramp 12) 0))).
  vm_compute. lia.
Defined.

(** ** The rasterizer: the visible window *)

Section ChartFacts.

Context {F : Type} {fl : Float64 F}.




Lemma count_flat_map {T : Type} (f : T -> list (DrawCmd F)) (l : list T) :
  (forall x, List.length (filter isWick (f x)) = 1%nat) ->
  List.length (filter isWick (flat_map f l)) = List.length l.
Proof.
  intros Hone. induction l as [|x l IH]; [reflexivity|].
  cbn [flat_map]. rewrite filter_app, length_app, Hone, IH. reflexivity.
Qed.

Lemma drawCandle_one_wick config lay maxPrice priceRange maxVolume i
    (c : Candlestick F) :
  List.length
    (filter isWick (drawCandle config lay maxPrice priceRange maxVolume i c))
  = 1%nat.
Proof.
  unfold drawCandle. rewrite filter_app.
  destruct (ShowVolume config && _); reflexivity.
Qed.

Lemma indexed_length {T : Type} (l : list T) :
  List.length (indexed l) = List.length l.
Proof. unfold indexed. rewrite length_combine, length_seq. lia. Qed.

Lemma drawCandles_wicks config lay maxPrice priceRange maxVolume
    (visible : list (Candlestick F)) :
  List.length
    (filter isWick
       (drawCandles config lay maxPrice priceRange maxVolume visible))
  = List.length visible.
Proof.
  unfold drawCandles. rewrite count_flat_map, indexed_length; [reflexivity|].
  intros [i c]. apply drawCandle_one_wick.
Qed.

Lemma drawMALine_no_wick ma lay maxPrice priceRange chartHeight c :
  filter isWick (drawMALine (F := F) ma lay maxPrice priceRange chartHeight c)
  = [].
Proof.
  unfold drawMALine.
  assert (Hinv : forall l acc,
             filter isWick (snd acc) = [] ->
             filter isWick
               (snd (fold_left
                       (maStep lay maxPrice priceRange chartHeight c) l acc))
             = []).
  { induction l as [|[i v] l IH]; intros [[px py] cmds] Hacc; [exact Hacc|].
    cbn [fold_left]. apply IH. unfold maStep.
    destruct (v =? fzero)%f64; [exact Hacc|].
    destruct (negb (px =? 0) && negb (py =? 0)); cbn [snd] in *;
      [|exact Hacc].
    rewrite filter_app, Hacc. reflexivity. }
  apply Hinv. reflexivity.
Qed.

Lemma drawMovingAverages_no_wick config lay maxPrice priceRange
    (visible : list (Candlestick F)) :
  filter isWick (drawMovingAverages config lay maxPrice priceRange visible)
  = [].
Proof.
  unfold drawMovingAverages. destruct (ShowMA config && _); [|reflexivity].
  rewrite filter_app, !drawMALine_no_wick. reflexivity.
Qed.

Lemma filter_none {T : Type} (p : T -> bool) (l : list T) :
  Forall (fun x => p x = false) l -> filter p l = [].
Proof.
  induction 1 as [|x l Hx _ IH]; [reflexivity|].
  cbn [filter]. now rewrite Hx.
Qed.


(** A chart area narrower than one candle leaves no candle visible. *)
Lemma visibleCandles_none (lay : Layout) (candles : list (Candlestick F)) :
  candles <> [] ->
  totalCandleWidth lay <> 0 ->
  (chartWidth lay / totalCandleWidth lay)%int = 0 ->
  visibleCandles lay candles = Ok [].
Proof.
  intros Hne Hw Hmax. unfold visibleCandles, maxCandlesOf.
  destruct (Z.eqb_spec (totalCandleWidth lay) 0) as [|_]; [contradiction|].
  cbn [bind]. rewrite Hmax.
  assert (Hlen : (0 < List.length candles)%nat)
    by (destruct candles; [congruence|cbn; lia]).
  destruct (Z.ltb_spec 0 (Z.of_nat (List.length candles))); [|lia].
  cbn [Z.ltb Z.compare Z.to_nat]. rewrite Nat.sub_0_r.
  now rewrite skipn_all.
Qed.

End ChartFacts.



(** Claim C9 fails on the code. When the chart area is narrower than one
    candle, [maxCandles] is 0, the trim leaves an empty slice and the read
    of the last candle panics. *)
Theorem narrow_chart_panics (F : Type) (fl : Float64 F)
    (candles : list (Candlestick F)) (symbol interval : string)
    (config : ChartConfig) (size : Z * Z) :
  candles <> [] ->
  newRGBA (Width config) (Height config) = Ok size ->
  (CandleWidth config + CandleGap config)%int <> 0 ->
  (chartWidth (layout (F := F) config 0)
   / (CandleWidth config + CandleGap config))%int = 0 ->
  GenerateCandlestickChart candles symbol interval config
  = Panic "runtime error: index out of range [-1]".
Proof.
  intros Hne Hsize Hw Hmax. unfold GenerateCandlestickChart.
  destruct candles as [|c rest] eqn:Hc; [congruence|]. rewrite <- Hc in *.
  replace (List.length candles =? 0)%nat with false
    by (rewrite Hc; reflexivity).
  rewrite Hsize. cbn [bind].
  destruct (priceVolumeRange candles) as [[minPrice0 maxPrice0] maxVolume].
  destruct (padRange minPrice0 maxPrice0) as [[minPrice maxPrice] priceRange].
  rewrite (visibleCandles_none (layout config 0) candles Hne Hw Hmax).
  reflexivity.
Qed.

(** Claim C9 at one bar on a canvas 100 wide with a padding of 48. *)
Lemma narrow_chart_panics_witness :
  GenerateCandlestickChart (ramp (F := float) 1) "BTCUSDT" "1h" narrowConfig
  = Panic "runtime error: index out of range [-1]".
Proof.
  apply (narrow_chart_panics float binary64 (ramp 1) "BTCUSDT" "1h"
           narrowConfig (100, 100)).
  - discriminate.
  - reflexivity.
  - vm_compute. discriminate.
  - vm_compute. reflexivity.
Defined.

(** ** The rasterizer: moving averages *)

(** Claim C2 fails on the code. The render never reads [MAperiods]: it
    gives the same result for every list of periods, and with the single
    period 10 configured it still draws the 40 segments of MA20 and the 10
    segments of MA50 over 60 bars, and no other segment. *)
Theorem ma_periods_ignored :
  (forall (F : Type) (fl : Float64 F) (candles : list (Candlestick F))
          (symbol interval : string) (config : ChartConfig) (periods : list Z),
     GenerateCandlestickChart candles symbol interval
       (withPeriods config periods)
     = GenerateCandlestickChart candles symbol interval config)
  /\ (exists cmds,
        GenerateCandlestickChart (ramp (F := float) 60) "BTCUSDT" "1h"
          (withPeriods DefaultChartConfig [10])
        = Ok cmds
        /\ List.length (maSegments colorMA20 cmds) = 40%nat
        /\ List.length (maSegments colorMA50 cmds) = 10%nat
        /\ List.length (filter (fun cmd => match cmd with
                                           | LineBresenham _ _ _ _ _ => true
                                           | _ => false
                                           end) cmds) = 50%nat).
Proof.
  split.
  - intros F fl candles symbol interval config periods.
    destruct config. reflexivity.
  - eexists. split; [vm_compute; reflexivity|].
    repeat split; vm_compute; reflexivity.
Qed.

(** ** The rasterizer: grid rows *)

Lemma wrap_id (z : Z) : Int.in_range z -> Int.wrap z = z.
Proof.
  unfold Int.in_range, Int.wrap, Int.min_int, Int.max_int. intros Hz.
  rewrite Z.mod_small; lia.
Qed.

Lemma upto_unit (lo hi : Z) :
  forall v, In v (upto lo hi 1) <-> lo <= v <= hi.
Proof.
  intros v. unfold upto. destruct (Z.leb_spec lo hi) as [Hle|Hgt].
  - rewrite in_map_iff. split.
    + intros (k & <- & Hk). apply in_seq in Hk.
      rewrite Z.div_1_r in Hk. lia.
    + intros Hv. exists (Z.to_nat (v - lo)). split; [lia|].
      apply in_seq. rewrite Z.div_1_r. lia.
  - cbn. lia.
Qed.

Lemma upto_step3 (lo hi : Z) :
  forall v, In v (upto lo hi 3)
            <-> lo <= v <= hi /\ exists k, 0 <= k /\ v = lo + 3 * k.
Proof.
  intros v. unfold upto. destruct (Z.leb_spec lo hi) as [Hle|Hgt].
  - rewrite in_map_iff. split.
    + intros (k & <- & Hk). apply in_seq in Hk.
      assert (Hdiv : 3 * ((hi - lo) / 3) <= hi - lo)
        by (apply Z.mul_div_le; lia).
      assert (Hpos : 0 <= (hi - lo) / 3) by (apply Z.div_pos; lia).
      split; [lia|]. exists (Z.of_nat k). lia.
    + intros (Hv & k & Hk & ->). exists (Z.to_nat k). split; [lia|].
      apply in_seq.
      assert (Hk3 : k <= (hi - lo) / 3) by (apply Z.div_le_lower_bound; lia).
      lia.
  - cbn. split; [tauto|]. intros (Hv & _). lia.
Qed.

Lemma upto_first (lo hi step : Z) : lo <= hi -> 0 < step -> In lo (upto lo hi step).
Proof.
  intros Hle Hs. unfold upto. destruct (Z.leb_spec lo hi); [|lia].
  apply in_map_iff. exists 0%nat. split; [lia|]. apply in_seq.
  assert (0 <= (hi - lo) / step) by (apply Z.div_pos; lia). lia.
Qed.

Lemma gridRows_five (y1 y2 : Z) :
  Int.in_range y1 -> Int.in_range y2 -> Int.in_range (y2 - y1) ->
  y1 <= y2 ->
  let step := Z.quot (y2 - y1) 5 in
  gridRows y1 y2 5
  = [y1; y1 + step; y1 + 2 * step; y1 + 3 * step; y1 + 4 * step;
     y1 + 5 * step]
  /\ 0 <= step /\ y1 + 5 * step <= y2.
Proof.
  intros H1 H2 H21 Hle step.
  assert (Hs : 0 <= step) by (apply Z.quot_pos; lia).
  assert (Hs5 : 5 * step <= y2 - y1)
    by (apply Z.mul_quot_le; lia).
  split; [|lia].
  unfold gridRows, Int.div, Int.sub, Int.add, Int.mul.
  rewrite (wrap_id (y2 - y1)) by exact H21. fold step.
  unfold Int.in_range, Int.min_int, Int.max_int in *.
  rewrite (wrap_id step) by (unfold Int.in_range, Int.min_int, Int.max_int; lia).
  change (upto 0 5 1) with [0; 1; 2; 3; 4; 5]. cbn [map].
  repeat match goal with
         | |- context [Int.wrap (?k * step)] =>
             rewrite (wrap_id (k * step))
               by (unfold Int.in_range, Int.min_int, Int.max_int; lia)
         end.
  repeat match goal with
         | |- context [Int.wrap (y1 + ?e)] =>
             rewrite (wrap_id (y1 + e))
               by (unfold Int.in_range, Int.min_int, Int.max_int; lia)
         end.
  repeat (apply f_equal2; [lia|]). reflexivity.
Qed.

(** Claim C7, as the code has it. With [count = 5] the grid has 6 rows, at
    [y1 + i * step] for [i] from 0 to 5 with [step = (y2 - y1) / 5]: they
    are distinct when the region is at least 5 pixels high, each is dashed
    (every third column from [x1] up to [x2]), and they lie between [y1]
    and [y2]. *)
Theorem six_grid_rows (x1 x2 y1 y2 : Z) (c : RGBA) :
  Int.in_range y1 -> Int.in_range y2 -> Int.in_range (y2 - y1) ->
  y1 + 5 <= y2 -> x1 <= x2 ->
  let step := Z.quot (y2 - y1) 5 in
  let pixels := drawHorizontalGridLines x1 x2 y1 y2 5 c in
  gridRows y1 y2 5
  = [y1; y1 + step; y1 + 2 * step; y1 + 3 * step; y1 + 4 * step;
     y1 + 5 * step]
  /\ NoDup (gridRows y1 y2 5)
  /\ List.length (gridRows y1 y2 5) = 6%nat
  /\ (forall y, In y (gridRows y1 y2 5) <-> exists x, In (x, y, c) pixels)
  /\ (forall p, In p pixels ->
        x1 <= pixelCol p <= x2
        /\ (exists k, 0 <= k /\ pixelCol p = x1 + 3 * k)
        /\ y1 <= pixelRow p <= y2).
Proof.
  intros H1 H2 H21 Hy Hx step pixels.
  destruct (gridRows_five y1 y2 H1 H2 H21 ltac:(lia)) as (Hrows & _ & Hlast).
  fold step in Hrows, Hlast.
  assert (Hstep : 1 <= step).
  { apply Z.quot_le_lower_bound; lia. }
  assert (Hin : forall x y,
             In (x, y, c) pixels
             <-> In y (gridRows y1 y2 5) /\ In x (upto x1 x2 3)).
  { intros x y. subst pixels. unfold drawHorizontalGridLines.
    rewrite in_flat_map. split.
    - intros (y' & Hy' & Hp). apply in_map_iff in Hp.
      destruct Hp as (x' & E & Hx'). inversion E; subst. now split.
    - intros (Hy' & Hx'). exists y. split; [exact Hy'|].
      apply in_map_iff. now exists x. }
  split; [exact Hrows|]. split.
  { rewrite Hrows.
    repeat (constructor; [cbn [In]; lia|]). constructor. }
  split; [now rewrite Hrows|]. split.
  - intros y. split.
    + intros Hy'. exists x1. apply Hin. split; [exact Hy'|].
      apply upto_first; lia.
    + intros (x & Hp). now apply Hin in Hp.
  - intros [[x y] c'] Hp. unfold pixelCol, pixelRow. cbn [fst snd].
    assert (c' = c).
    { subst pixels. unfold drawHorizontalGridLines in Hp.
      apply in_flat_map in Hp. destruct Hp as (y' & _ & Hp).
      apply in_map_iff in Hp. destruct Hp as (x' & E & _). now inversion E. }
    subst c'. apply Hin in Hp. destruct Hp as (Hrow & Hcol).
    apply upto_step3 in Hcol. destruct Hcol as (Hcol & Hk).
    split; [exact Hcol|]. split; [exact Hk|].
    rewrite Hrows in Hrow. cbn [In] in Hrow. lia.
Qed.

(** Claim C7 on the price region of the default chart. *)
Lemma six_grid_rows_witness :
  gridRows 60 405 5 = [60; 129; 198; 267; 336; 405]
  /\ NoDup (gridRows 60 405 5).
Proof.
  pose proof (six_grid_rows 60 1140 60 405 colorGridDark) as Hgrid.
  unfold Int.in_range, Int.min_int, Int.max_int in Hgrid.
  destruct Hgrid as (Hrows & Hnodup & _); try lia.
  split; [exact Hrows|exact Hnodup].
Defined.

(** Claim C7 as stated fails: the default chart has one grid call, with
    [count = 5], and it paints 6 rows. *)
Lemma five_grid_rows_counterexample :
  exists cmds,
    GenerateCandlestickChart (ramp (F := float) 2) "BTCUSDT" "1h"
      DefaultChartConfig
    = Ok cmds
    /\ filter (fun cmd => match cmd with
                          | GridLines _ _ _ _ _ _ => true
                          | _ => false
                          end) cmds
       = [GridLines 60 1140 60 405 5 colorGridDark]
    /\ nodup Z.eq_dec
         (map pixelRow (drawHorizontalGridLines 60 1140 60 405 5 colorGridDark))
       = [60; 129; 198; 267; 336; 405]
    /\ List.length (gridRows 60 405 5) <> 5%nat.
Proof.
  eexists. split; [vm_compute; reflexivity|].
  split; [vm_compute; reflexivity|].
  split; [vm_compute; reflexivity|].
  vm_compute. discriminate.
Qed.

(** ** The rasterizer: prices to pixel rows, in exact arithmetic *)

Lemma exact_to_int_floor (x : Q) :
  (0 <= x)%Q -> Int.in_range (Qfloor x) -> to_int (F := Q) x = Qfloor x.
Proof.
  intros Hx Hr. cbn [to_int exactQ]. unfold Exact.to_Z.
  assert (Hq : Z.quot (Qnum x) (Z.pos (Qden x)) = Qfloor x).
  { destruct x as [n d]. cbn [Qnum Qden Qfloor].
    apply Z.quot_div_nonneg; [|lia].
    unfold Qle in Hx. cbn in Hx. lia. }
  rewrite Hq. unfold Int.in_range in Hr.
  destruct (Z.leb_spec Int.min_int (Qfloor x));
    destruct (Z.leb_spec (Qfloor x) Int.max_int); cbn [andb]; lia.
Qed.

Lemma exact_ltb_iff (x y : Q) : flt (F := Q) x y = true <-> (x < y)%Q.
Proof.
  cbn [flt exactQ]. unfold Exact.ltb. rewrite negb_true_iff.
  split.
  - intros Hb. apply Qnot_le_lt. intros Hle.
    apply Qle_bool_iff in Hle. congruence.
  - intros Hlt. destruct (Qle_bool y x) eqn:E; [|reflexivity].
    apply Qle_bool_iff in E. exfalso. now apply (Qlt_not_le x y).
Qed.

Lemma exact_ltb_false (x y : Q) : flt (F := Q) x y = false <-> (y <= x)%Q.
Proof.
  cbn [flt exactQ]. unfold Exact.ltb. rewrite negb_false_iff.
  apply Qle_bool_iff.
Qed.

Section Depth.

Variables (maxPrice minPrice : Q) (chartHeight : Z).
Hypothesis Hrange : (minPrice < maxPrice)%Q.
Hypothesis Hheight : 0 <= chartHeight.

(** The part of the chart height above a price. *)
Let depth (price : Q) : Q :=
  ((maxPrice - price) / (maxPrice - minPrice) * inject_Z chartHeight)%Q.

Lemma range_pos : (0 < maxPrice - minPrice)%Q.
Proof. unfold Qminus. now rewrite <- Qlt_minus_iff. Qed.

Lemma depth_antitone (p q : Q) : (p <= q)%Q -> (depth q <= depth p)%Q.
Proof.
  intros Hpq. unfold depth, Qdiv.
  apply Qmult_le_compat_r.
  - apply Qmult_le_compat_r.
    + unfold Qminus. apply Qplus_le_r. now apply Qopp_le_compat.
    + apply Qlt_le_weak, Qinv_lt_0_compat, range_pos.
  - change 0%Q with (inject_Z 0). now rewrite <- Zle_Qle.
Qed.

Lemma depth_top : (depth maxPrice == 0)%Q.
Proof. unfold depth, Qdiv. setoid_replace (maxPrice - maxPrice)%Q with 0%Q by ring. ring. Qed.

Lemma depth_bottom : (depth minPrice == inject_Z chartHeight)%Q.
Proof.
  unfold depth. field. intros E.
  pose proof range_pos as Hp. rewrite E in Hp. now apply Qlt_irrefl in Hp.
Qed.

Lemma depth_bounds (p : Q) :
  (minPrice <= p)%Q -> (p <= maxPrice)%Q ->
  (0 <= depth p)%Q /\ (depth p <= inject_Z chartHeight)%Q.
Proof.
  intros Hlo Hhi. split.
  - rewrite <- depth_top. now apply depth_antitone.
  - rewrite <- depth_bottom. now apply depth_antitone.
Qed.

End Depth.







(** ** The rasterizer: trade levels *)

(** Claim C4 fails on the code. For a short trade (stop 120 above the bars,
    target 95 below them, bars from 100 to 110) the range is not extended:
    the chart spans the rows 60 to 480, the stop is drawn on row -302 and
    the target on row 651. *)
Theorem level_lines_outside_chart :
  exists cmds,
    GenerateChartWithLevels [bar (F := float) 105 110 100 105]
      "BTCUSDT" "1h" (Some shortLevels)
    = Ok cmds
    /\ chartTop (layout (F := float) levelsConfig 80) = 60
    /\ chartBottom (layout (F := float) levelsConfig 80) = 480
    /\ filter isLevelLine cmds
       = [LevelLine 60 1260 270 colorEntry;
          LevelLine 60 1260 (-302) colorSL;
          LevelLine 60 1260 651 colorTP].
Proof.
  eexists. split; [vm_compute; reflexivity|].
  repeat split; vm_compute; reflexivity.
Qed.

(** * Further properties of the indicator engine *)

Section SummaryFacts.

Context {F : Type} {fl : Float64 F}.

(** The fields of the summary of a non-empty slice, one by one. *)
Lemma analyze_fields (candles : list (Candlestick F)) (interval : string) :
  candles <> [] ->
  let len := List.length candles in
  let s := AnalyzeCandlestickData candles interval in
  SHigh s = fst (fst (scanHighLowVolume candles))
  /\ SLow s = snd (fst (scanHighLowVolume candles))
  /\ MA20 s = (if (20 <=? len)%nat
               then (sumLastCloses candles 20 / fconst 20 1)%f64 else fzero)
  /\ MA50 s = (if (50 <=? len)%nat
               then (sumLastCloses candles 50 / fconst 50 1)%f64 else fzero)
  /\ Trend s = trendOf (Close (at_ candles (len - 1))) (MA20 s) (MA50 s)
  /\ Volatility s = (if (14 <=? len)%nat
                     then volatilityOf candles (Close (at_ candles (len - 1)))
                     else ""%string).
Proof.
  intros Hne len s. subst s. unfold AnalyzeCandlestickData. fold len.
  destruct (Nat.eqb_spec len 0) as [Hz|_].
  { subst len. destruct candles; [congruence|discriminate]. }
  destruct (scanHighLowVolume candles) as [[hi lo] vol].
  repeat split.
Qed.

Lemma volatilityOf_label (candles : list (Candlestick F)) (close : F) :
  let v := volatilityOf candles close in
  v = "HIGH"%string \/ v = "MEDIUM"%string \/ v = "LOW"%string.
Proof.
  unfold volatilityOf.
  repeat match goal with
         | |- context [if ?b then _ else _] => destruct b
         end; auto.
Qed.

End SummaryFacts.

(** A history too short for an indicator is no error: the indicator keeps
    its zero value. The averages need 20 and 50 bars, the RSI 15 and the
    volatility 14; with 14 bars or more the volatility is one of the three
    labels. *)
Theorem short_history_sentinels (F : Type) (fl : Float64 F)
    (candles : list (Candlestick F)) (interval : string) :
  candles <> [] ->
  let len := List.length candles in
  let s := AnalyzeCandlestickData candles interval in
  CandleCount s = Z.of_nat len
  /\ ((len < 20)%nat -> MA20 s = fzero)
  /\ ((len < 50)%nat -> MA50 s = fzero)
  /\ ((len < 15)%nat -> RSI s = fzero)
  /\ ((len < 14)%nat -> Volatility s = ""%string)
  /\ ((14 <= len)%nat ->
      Volatility s = "HIGH"%string \/ Volatility s = "MEDIUM"%string
      \/ Volatility s = "LOW"%string).
Proof.
  intros Hne len s.
  destruct (analyze_fields candles interval Hne)
    as (_ & _ & H20 & H50 & _ & Hvol).
  fold len s in H20, H50, Hvol.
  split; [now apply analyze_nonempty|].
  split. { intros Hl. rewrite H20. destruct (Nat.leb_spec 20 len); [lia|reflexivity]. }
  split. { intros Hl. rewrite H50. destruct (Nat.leb_spec 50 len); [lia|reflexivity]. }
  split. { intros Hl. now apply rsi_short. }
  split. { intros Hl. rewrite Hvol. destruct (Nat.leb_spec 14 len); [lia|reflexivity]. }
  intros Hl. rewrite Hvol. destruct (Nat.leb_spec 14 len); [|lia].
  apply volatilityOf_label.
Qed.

Lemma short_history_sentinels_witness :
  MA50 (AnalyzeCandlestickData (ramp (F := float) 30) "1h") = fzero.
Proof.
  refine (proj1 (proj2 (proj2
            (short_history_sentinels float binary64 (ramp 30) "1h" _))) _).
  - discriminate.
  - vm_compute. lia.
Defined.

(** With fewer than 20 bars both averages are absent and the trend is
    SIDEWAYS whatever the prices, in binary64 and in exact arithmetic. *)
Theorem trend_sideways_below_twenty :
  (forall (candles : list (Candlestick float)) (interval : string),
     candles <> [] -> (List.length candles < 20)%nat ->
     Trend (AnalyzeCandlestickData candles interval) = "SIDEWAYS"%string)
  /\ (forall (candles : list (Candlestick Q)) (interval : string),
        candles <> [] -> (List.length candles < 20)%nat ->
        Trend (AnalyzeCandlestickData candles interval) = "SIDEWAYS"%string).
Proof.
  split; intros candles interval Hne Hlen;
    destruct (analyze_fields candles interval Hne)
      as (_ & _ & H20 & H50 & Htrend & _);
    cbv zeta in *; rewrite Htrend, H20, H50;
    destruct (Nat.leb_spec 20 (List.length candles)); try lia;
    destruct (Nat.leb_spec 50 (List.length candles)); try lia;
    unfold trendOf;
    change ((fzero >? fzero)%f64) with false;
    change ((fzero <? fzero)%f64) with false;
    rewrite !andb_false_r; reflexivity.
Qed.

Lemma trend_sideways_below_twenty_witness :
  Trend (AnalyzeCandlestickData (ramp (F := float) 12) "1h") = "SIDEWAYS"%string.
Proof.
  apply (proj1 trend_sideways_below_twenty).
  - discriminate.
  - vm_compute. lia.
Defined.

(** The candles kept for pattern recognition are the last 10 bars of the
    slice (all of them when there are fewer), in their order, each with the
    prices and the volume of its bar and the type of that bar. *)
Theorem last_candles_are_last_bars (F : Type) (fl : Float64 F)
    (candles : list (Candlestick F)) (interval : string)
    (d : CandleSimple F) :
  let len := List.length candles in
  let kept := LastCandles (AnalyzeCandlestickData candles interval) in
  List.length kept = Nat.min 10 len
  /\ forall k, (k < List.length kept)%nat ->
       let b := at_ candles (len - 10 + k) in
       let c := nth k kept d in
       Time c = OpenTime b /\ O c = Open b /\ H c = High b /\ L c = Low b
       /\ C c = Close b /\ Vol c = Volume b /\ Type_ c = candleType b.
Proof.
  assert (Hcases : candles = [] \/ candles <> [])
    by (destruct candles; [now left|right; discriminate]).
  destruct Hcases as [->|Hne]; [cbn; split; [reflexivity|intros; lia]|].
  intros len kept. subst kept. rewrite analyze_lastCandles by exact Hne.
  split; [apply lastCandles_length|].
  intros k Hk. rewrite lastCandles_length in Hk. cbv zeta.
  rewrite lastCandles_nth by exact Hk. fold len.
  unfold simpleCandle. cbn. repeat split.
Qed.

(** The scan of the summary bounds every bar of the slice. *)
Lemma scanStep_bounds (candles : list (Candlestick Q)) :
  forall hi lo vol,
    (hi <= fst (fst (fold_left scanStep candles (hi, lo, vol))))%Q
    /\ (snd (fst (fold_left scanStep candles (hi, lo, vol))) <= lo)%Q
    /\ forall b, In b candles ->
         (High b <= fst (fst (fold_left scanStep candles (hi, lo, vol))))%Q
         /\ (snd (fst (fold_left scanStep candles (hi, lo, vol))) <= Low b)%Q.
Proof.
  induction candles as [|c candles IH]; intros hi lo vol.
  - cbn. repeat split; try apply Qle_refl; contradiction.
  - cbn [fold_left]. unfold scanStep at 2 4 6 8.
    set (hi' := if (High c >? hi)%f64 then High c else hi).
    set (lo' := if (Low c <? lo)%f64 then Low c else lo).
    destruct (IH hi' lo' (vol + Volume c)%f64) as (Hhi & Hlo & Hall).
    assert (Hh : (hi <= hi')%Q /\ (High c <= hi')%Q).
    { subst hi'. destruct (High c >? hi)%f64 eqn:E.
      - apply exact_ltb_iff in E.
        split; [now apply Qlt_le_weak|apply Qle_refl].
      - apply exact_ltb_false in E. split; [apply Qle_refl|exact E]. }
    assert (Hl : (lo' <= lo)%Q /\ (lo' <= Low c)%Q).
    { subst lo'. destruct (Low c <? lo)%f64 eqn:E.
      - apply exact_ltb_iff in E.
        split; [now apply Qlt_le_weak|apply Qle_refl].
      - apply exact_ltb_false in E. split; [apply Qle_refl|exact E]. }
    destruct Hh as [Hh1 Hh2]. destruct Hl as [Hl1 Hl2].
    split; [eapply Qle_trans; eassumption|].
    split; [eapply Qle_trans; eassumption|].
    intros b [<-|Hin].
    + split; eapply Qle_trans; eassumption.
    + now apply Hall.
Qed.

(** The scan returns prices of the slice, in every arithmetic. *)
Lemma scanStep_attained (F : Type) (fl : Float64 F)
    (candles : list (Candlestick F)) :
  forall hi lo vol,
    (fst (fst (fold_left scanStep candles (hi, lo, vol))) = hi
     \/ exists b, In b candles
                  /\ fst (fst (fold_left scanStep candles (hi, lo, vol)))
                     = High b)
    /\ (snd (fst (fold_left scanStep candles (hi, lo, vol))) = lo
        \/ exists b, In b candles
                     /\ snd (fst (fold_left scanStep candles (hi, lo, vol)))
                        = Low b).
Proof.
  induction candles as [|c candles IH]; intros hi lo vol.
  - cbn. split; now left.
  - cbn [fold_left]. unfold scanStep at 2 4 6 8.
    set (hi' := if (High c >? hi)%f64 then High c else hi).
    set (lo' := if (Low c <? lo)%f64 then Low c else lo).
    destruct (IH hi' lo' (vol + Volume c)%f64) as (Hhi & Hlo). split.
    + destruct Hhi as [Hhi|(b & Hb & Hhi)].
      * rewrite Hhi. subst hi'. destruct (High c >? hi)%f64; [|now left].
        right. exists c. split; [now left|reflexivity].
      * right. exists b. split; [now right|exact Hhi].
    + destruct Hlo as [Hlo|(b & Hb & Hlo)].
      * rewrite Hlo. subst lo'. destruct (Low c <? lo)%f64; [|now left].
        right. exists c. split; [now left|reflexivity].
      * right. exists b. split; [now right|exact Hlo].
Qed.

(** In exact arithmetic the summary's high is the highest high of the
    slice and its low the lowest low: each bounds every bar and each is
    the price of some bar. *)
Theorem summary_extremes (candles : list (Candlestick Q)) (interval : string) :
  candles <> [] ->
  let s := AnalyzeCandlestickData candles interval in
  (forall b, In b candles -> (High b <= SHigh s)%Q /\ (SLow s <= Low b)%Q)
  /\ (exists b, In b candles /\ SHigh s = High b)
  /\ (exists b, In b candles /\ SLow s = Low b).
Proof.
  intros Hne s.
  destruct (analyze_fields candles interval Hne) as (Hhi & Hlo & _).
  fold s in Hhi, Hlo. rewrite Hhi, Hlo. unfold scanHighLowVolume.
  assert (H0 : In (at_ candles 0) candles).
  { destruct candles as [|c rest]; [congruence|]. now left. }
  split.
  - intros b Hb.
    now apply (scanStep_bounds candles (High (at_ candles 0))
                 (Low (at_ candles 0)) fzero).
  - destruct (scanStep_attained Q exactQ candles (High (at_ candles 0))
                (Low (at_ candles 0)) fzero) as (Ha & Hb).
    split.
    + destruct Ha as [Ha|Ha]; [|exact Ha].
      exists (at_ candles 0). now split.
    + destruct Hb as [Hb|Hb]; [|exact Hb].
      exists (at_ candles 0). now split.
Qed.

Lemma summary_extremes_witness :
  exists b, In b (ramp (F := Q) 3)
            /\ SHigh (AnalyzeCandlestickData (ramp (F := Q) 3) "1h") = High b.
Proof.
  refine (proj1 (proj2 (summary_extremes (ramp 3) "1h" _))).
  discriminate.
Defined.

(** Gains and losses are sums of non-negative terms. *)
Lemma gainsLosses_nonneg (candles : list (Candlestick Q)) (idx : list nat) :
  forall acc,
    (0 <= fst acc)%Q -> (0 <= snd acc)%Q ->
    (0 <= fst (fold_left (rsiStep candles) idx acc))%Q
    /\ (0 <= snd (fold_left (rsiStep candles) idx acc))%Q.
Proof.
  induction idx as [|i idx IH]; intros [gains losses] Hg Hl; [now split|].
  cbn [fold_left]. apply IH; unfold rsiStep; cbn [fst snd] in *;
    destruct (_ >? fzero)%f64 eqn:E; cbn [fst snd]; try assumption.
  - apply exact_ltb_iff in E. cbn [fsub fadd exactQ fzero fconst] in *.
    unfold fzero in E. cbn in E. lra.
  - apply exact_ltb_false in E. cbn [fsub fadd exactQ] in *.
    unfold fzero in E. cbn in E. lra.
Qed.

Lemma rsi14_bounds (candles : list (Candlestick Q)) :
  (0 <= rsi14 candles)%Q /\ (rsi14 candles <= 100)%Q.
Proof.
  unfold rsi14.
  pose proof (gainsLosses_nonneg candles
                (indices (List.length candles - 14) (List.length candles))
                (fzero, fzero)) as Hnn.
  fold (gainsLosses candles) in Hnn.
  destruct (gainsLosses candles) as [gains losses]. cbn [fst snd] in Hnn.
  destruct Hnn as [Hg Hl]; try (unfold fzero; cbn; lra).
  destruct (_ >? fzero)%f64 eqn:E; [|cbn; lra].
  apply exact_ltb_iff in E. unfold fzero in E.
  cbn [fsub fadd fdiv fconst exactQ] in *.
  set (avgGain := (gains / (14 # 1))%Q) in *.
  set (avgLoss := (losses / (14 # 1))%Q) in *.
  assert (Hag : (0 <= avgGain)%Q).
  { subst avgGain. apply Qle_shift_div_l; lra. }
  assert (Hrs : (0 <= avgGain / avgLoss)%Q).
  { apply Qle_shift_div_l; [exact E|lra]. }
  set (rs := (avgGain / avgLoss)%Q) in *.
  assert (Hd : (0 < (1 # 1) + rs)%Q) by lra.
  assert (Hlo : (0 <= (100 # 1) / ((1 # 1) + rs))%Q).
  { apply Qle_shift_div_l; [exact Hd|lra]. }
  assert (Hhi : ((100 # 1) / ((1 # 1) + rs) <= 100)%Q).
  { apply Qle_shift_div_r; [exact Hd|lra]. }
  set (t := ((100 # 1) / ((1 # 1) + rs))%Q) in *. lra.
Qed.

(** In exact arithmetic the RSI of the summary is between 0 and 100 for
    every input. *)
Theorem rsi_within_bounds (candles : list (Candlestick Q)) (interval : string) :
  (0 <= RSI (AnalyzeCandlestickData candles interval))%Q
  /\ (RSI (AnalyzeCandlestickData candles interval) <= 100)%Q.
Proof.
  destruct (Nat.leb_spec 15 (List.length candles)) as [Hlen|Hlen].
  - rewrite rsi_long by exact Hlen. apply rsi14_bounds.
  - rewrite rsi_short by exact Hlen. cbn. lra.
Qed.

(** In exact arithmetic: a bar with no range is left without a type and no
    division takes place; a bar whose close equals its open and that has a
    range is a DOJI; a BULL closes above its open and a BEAR below; there
    is no other type. *)
Theorem candle_type_cases (c : Candlestick Q) :
  ((High c <= Low c)%Q -> candleType c = ""%string)
  /\ ((Low c < High c)%Q -> (Close c == Open c)%Q ->
      candleType c = "DOJI"%string)
  /\ (candleType c = "BULL"%string -> (Open c < Close c)%Q)
  /\ (candleType c = "BEAR"%string -> (Close c < Open c)%Q)
  /\ (candleType c = "BULL"%string \/ candleType c = "BEAR"%string
      \/ candleType c = "DOJI"%string \/ candleType c = ""%string).
Proof.
  remember (candleType c) as t eqn:Ht. unfold candleType in Ht.
  cbn [fsub fdiv fconst exactQ] in Ht. unfold fzero in Ht.
  cbn [fconst exactQ] in Ht.
  set (bodySize := (Close c - Open c)%Q) in *.
  set (totalRange := (High c - Low c)%Q) in *.
  destruct (flt (0 # 1) totalRange) eqn:Er.
  - apply exact_ltb_iff in Er.
    assert (Hratio : forall a : Q,
               (a < bodySize / totalRange)%Q -> (a * totalRange < bodySize)%Q).
    { intros a Ha. apply Qnot_le_lt. intros Hle.
      apply (Qle_shift_div_r _ _ _ Er) in Hle. lra. }
    assert (Hratio' : forall a : Q,
               (bodySize / totalRange < a)%Q -> (bodySize < a * totalRange)%Q).
    { intros a Ha. apply Qnot_le_lt. intros Hle.
      apply (Qle_shift_div_l _ _ _ Er) in Hle. lra. }
    destruct (flt (1 # 10) (bodySize / totalRange)%Q) eqn:Eb;
      [apply exact_ltb_iff in Eb; apply Hratio in Eb
      |destruct (flt (bodySize / totalRange)%Q (-1 # 10)) eqn:Ee;
       [apply exact_ltb_iff in Ee; apply Hratio' in Ee|]];
      subst t; repeat split;
      try (intros Hx; discriminate Hx);
      try (intros; subst bodySize totalRange; lra);
      try reflexivity; auto 6.
  - apply exact_ltb_false in Er.
    subst t; repeat split;
      try (intros Hx; discriminate Hx);
      try (intros; subst totalRange; lra);
      try reflexivity; auto 6.
Qed.

(** * Further properties of the drawing primitives *)

Lemma upto_unit_length (lo hi : Z) :
  Z.of_nat (List.length (upto lo hi 1)) = Z.max 0 (hi - lo + 1).
Proof.
  unfold upto. destruct (Z.leb_spec lo hi).
  - rewrite length_map, length_seq, Z.div_1_r. lia.
  - cbn. lia.
Qed.

Lemma flat_map_constant_length {T U : Type} (f : T -> list U) (l : list T)
    (n : nat) :
  (forall x, In x l -> List.length (f x) = n) ->
  List.length (flat_map f l) = (List.length l * n)%nat.
Proof.
  induction l as [|x l IH]; intros Hn; [reflexivity|].
  cbn [flat_map List.length]. rewrite length_app, Hn by now left.
  rewrite IH by (intros y Hy; apply Hn; now right). lia.
Qed.

(** [drawFilledRect] paints each pixel of [x1, x2) x [y1, y2) in the given
    color and nothing else; a rectangle with [x2 <= x1] or [y2 <= y1] is
    empty. *)
Theorem filled_rect_pixels (x1 y1 x2 y2 : Z) (c : RGBA) :
  (forall x y c', In (x, y, c') (drawFilledRect x1 y1 x2 y2 c)
                  <-> c' = c /\ x1 <= x < x2 /\ y1 <= y < y2)
  /\ Z.of_nat (List.length (drawFilledRect x1 y1 x2 y2 c))
     = Z.max 0 (x2 - x1) * Z.max 0 (y2 - y1).
Proof.
  split.
  - intros x y c'. unfold drawFilledRect. rewrite in_flat_map. split.
    + intros (x' & Hx & Hp). apply in_map_iff in Hp.
      destruct Hp as (y' & E & Hy). inversion E; subst.
      apply upto_unit in Hx. apply upto_unit in Hy. repeat split; lia.
    + intros (-> & Hx & Hy). exists x. split; [apply upto_unit; lia|].
      apply in_map_iff. exists y. split; [reflexivity|apply upto_unit; lia].
  - unfold drawFilledRect.
    rewrite (flat_map_constant_length _ _ (List.length (upto y1 (y2 - 1) 1)))
      by (intros; apply length_map).
    rewrite Nat2Z.inj_mul, !upto_unit_length. f_equal; lia.
Qed.





(** The labels of the price scale stand on the rows of the grid, 4 pixels
    lower, one label per row, all in the column [x]. The render calls both
    with the top and the bottom of the chart. *)
Theorem price_scale_on_grid_rows (F : Type) (fl : Float64 F)
    (x top bottom : Z) (minPrice maxPrice : F) (c : RGBA) :
  map textAt (drawPriceScale x top bottom minPrice maxPrice c)
  = map (fun y => Some (x, (y + 4)%int)) (gridRows top bottom 5)
  /\ List.length (drawPriceScale x top bottom minPrice maxPrice c) = 6%nat.
Proof.
  unfold drawPriceScale, gridRows. rewrite !map_map. split; reflexivity.
Qed.

(** In exact arithmetic the labels of the price scale run from the padded
    maximum at the top to the padded minimum at the bottom in 5 equal
    steps. *)
Theorem price_scale_prices (x top bottom : Z) (minPrice maxPrice : Q)
    (c : RGBA) :
  exists p0 p1 p2 p3 p4 p5 : Q,
    map labelPrice (drawPriceScale x top bottom minPrice maxPrice c)
    = [Some p0; Some p1; Some p2; Some p3; Some p4; Some p5]
    /\ (p0 == maxPrice)%Q /\ (p5 == minPrice)%Q
    /\ (p0 - p1 == (maxPrice - minPrice) / 5)%Q
    /\ (p1 - p2 == (maxPrice - minPrice) / 5)%Q
    /\ (p2 - p3 == (maxPrice - minPrice) / 5)%Q
    /\ (p3 - p4 == (maxPrice - minPrice) / 5)%Q
    /\ (p4 - p5 == (maxPrice - minPrice) / 5)%Q.
Proof.
  unfold drawPriceScale. change (upto 0 5 1) with [0; 1; 2; 3; 4; 5].
  cbn [map labelPrice fsub fmul fdiv of_int exactQ].
  do 6 eexists. split; [reflexivity|].
  repeat split; field.
Qed.

(** * Further properties of the moving averages *)

(** [calculateMA] returns one value per bar, and the value is 0 (absent) at
    every index that has fewer than [period] bars up to it. *)
Theorem calculateMA_shape (F : Type) (fl : Float64 F)
    (candles : list (Candlestick F)) (period : Z) (d : F) :
  Int.in_range (period - 1) ->
  List.length (calculateMA candles period) = List.length candles
  /\ forall i, (i < List.length candles)%nat -> Z.of_nat i < period - 1 ->
       nth i (calculateMA candles period) d = fzero.
Proof.
  intros Hp. unfold calculateMA, indices. rewrite Nat.sub_0_r.
  match goal with
  | |- context [map ?g (seq 0 _)] => set (f := g)
  end.
  split.
  - now rewrite length_map, length_seq.
  - intros i Hi Hlt.
    rewrite (nth_indep _ d (f 0%nat))
      by (rewrite length_map, length_seq; exact Hi).
    rewrite map_nth, seq_nth by exact Hi. cbn [Nat.add]. subst f. cbv beta.
    unfold Int.sub. rewrite (wrap_id (period - 1)) by exact Hp.
    destruct (Z.ltb_spec (Z.of_nat i) (period - 1)); [reflexivity|lia].
Qed.

Lemma calculateMA_shape_witness :
  nth 18 (calculateMA (ramp (F := float) 60) 20) 1%float = fzero.
Proof.
  refine (proj2 (calculateMA_shape float binary64 (ramp 60) 20 1%float _)
            18%nat _ _).
  - unfold Int.in_range, Int.min_int, Int.max_int. lia.
  - vm_compute. lia.
  - lia.
Defined.

Lemma map_snd_indexed {T : Type} (l : list T) : map snd (indexed l) = l.
Proof.
  unfold indexed. generalize 0%nat.
  induction l as [|x l IH]; intros n; [reflexivity|].
  cbn [List.length seq combine map snd]. now rewrite IH.
Qed.

Section PolylineFacts.

Context {F : Type} {fl : Float64 F}.

(** The state of [drawMALine] after some values: no segment before the
    second present value, at most one more with each further one, all in
    the color of the line. *)
Lemma maStep_invariant lay maxPrice priceRange chartHeight (c : RGBA)
    (l : list (nat * F)) :
  forall acc seen,
    (seen = 0%nat -> acc = (0, 0, [])) ->
    (List.length (snd acc) <= seen - 1)%nat ->
    Forall (fun cmd => exists x0 y0 x1 y1,
                cmd = LineBresenham x0 y0 x1 y1 c /\ x0 <> 0 /\ y0 <> 0)
           (snd acc) ->
    let r := fold_left (maStep lay maxPrice priceRange chartHeight c) l acc in
    (List.length (snd r) <= seen + List.length (present (map snd l)) - 1)%nat
    /\ Forall (fun cmd => exists x0 y0 x1 y1,
                   cmd = LineBresenham x0 y0 x1 y1 c /\ x0 <> 0 /\ y0 <> 0)
              (snd r).
Proof.
  induction l as [|[i v] l IH]; intros acc seen Hzero Hlen Hall; cbv zeta.
  - cbn. split; [lia|exact Hall].
  - cbn [fold_left map snd]. unfold present. cbn [filter].
    fold (present (map snd l)). unfold maStep at 2 4.
    destruct acc as [[px py] cmds]. cbn [snd] in *.
    destruct (v =? fzero)%f64 eqn:Ev; cbn [negb].
    + apply (IH (px, py, cmds) seen); assumption.
    + cbn [List.length].
      replace (seen + S (List.length (present (map snd l))) - 1)%nat
        with (S seen + List.length (present (map snd l)) - 1)%nat by lia.
      apply IH.
      * discriminate.
      * destruct (negb (px =? 0) && negb (py =? 0)) eqn:Eprev; cbn [snd].
        -- rewrite length_app. cbn [List.length].
           destruct seen as [|seen].
           ++ specialize (Hzero eq_refl). inversion Hzero; subst.
              discriminate Eprev.
           ++ lia.
        -- lia.
      * destruct (negb (px =? 0) && negb (py =? 0)) eqn:Eprev; cbn [snd];
          [|exact Hall].
        apply Forall_app. split; [exact Hall|]. constructor; [|constructor].
        apply andb_true_iff in Eprev. destruct Eprev as [Ex Ey].
        apply negb_true_iff in Ex, Ey.
        do 4 eexists. split; [reflexivity|].
        split; [now apply Z.eqb_neq|now apply Z.eqb_neq].
Qed.

End PolylineFacts.

(** [drawMALine] skips the absent values of the average: it draws at most
    one segment less than there are present values, so nothing when fewer
    than two are present; all its segments have the color of the line, and
    none starts in column 0 or on row 0, which the loop reads as "no
    previous point". *)
Theorem ma_line_segments (F : Type) (fl : Float64 F) (ma : list F)
    (lay : Layout) (maxPrice priceRange chartHeight : F) (c : RGBA) :
  let segments := drawMALine ma lay maxPrice priceRange chartHeight c in
  (List.length segments <= List.length (present ma) - 1)%nat
  /\ Forall (fun cmd => exists x0 y0 x1 y1,
                 cmd = LineBresenham x0 y0 x1 y1 c /\ x0 <> 0 /\ y0 <> 0)
            segments.
Proof.
  intros segments. subst segments. unfold drawMALine.
  pose proof (maStep_invariant lay maxPrice priceRange chartHeight c
                (indexed ma) (0, 0, []) 0%nat) as Hinv.
  cbv zeta in Hinv. cbn [snd List.length Nat.add] in Hinv.
  rewrite map_snd_indexed in Hinv. apply Hinv; auto.
Qed.

(** * Further properties of the render as a whole *)

Section RenderFacts.

Context {F : Type} {fl : Float64 F}.

Lemma length_nonzero (candles : list (Candlestick F)) :
  candles <> [] -> (List.length candles =? 0)%nat = false.
Proof. destruct candles; [congruence|reflexivity]. Qed.

(** The trim keeps [min maxCandles len] bars when [maxCandles] is not
    negative. *)
Lemma visibleCandles_total (lay : Layout) (candles : list (Candlestick F)) :
  totalCandleWidth lay <> 0 ->
  0 <= (chartWidth lay / totalCandleWidth lay)%int ->
  exists visible,
    visibleCandles lay candles = Ok visible
    /\ List.length visible
       = Nat.min (Z.to_nat (chartWidth lay / totalCandleWidth lay)%int)
           (List.length candles).
Proof.
  intros Hw Hmax. unfold visibleCandles, maxCandlesOf.
  destruct (Z.eqb_spec (totalCandleWidth lay) 0) as [|_]; [contradiction|].
  cbn [bind].
  set (maxCandles := (chartWidth lay / totalCandleWidth lay)%int) in *.
  destruct (Z.ltb_spec maxCandles (Z.of_nat (List.length candles))).
  - destruct (Z.ltb_spec maxCandles 0); [lia|].
    eexists. split; [reflexivity|]. rewrite length_skipn. lia.
  - eexists. split; [reflexivity|]. lia.
Qed.

Lemma lastVisible_total (visible : list (Candlestick F)) :
  visible <> [] -> exists c, lastVisible visible = Ok c.
Proof. destruct visible; [congruence|]. intros _. eexists. reflexivity. Qed.

Lemma newRGBA_Ok (w h : Z) :
  0 <= w -> 0 <= h -> 4 * w * h <= Int.max_int -> newRGBA w h = Ok (w, h).
Proof.
  intros Hw Hh Hfit.
  assert (Ew : (w <? 0) = false) by (apply Z.ltb_ge; lia).
  assert (Eh : (h <? 0) = false) by (apply Z.ltb_ge; lia).
  assert (Efit : (Int.max_int <? 4 * w * h) = false)
    by (apply Z.ltb_ge; lia).
  unfold newRGBA. cbv zeta. rewrite Ew, Eh. cbv iota.
  rewrite Ew, Eh, Efit. reflexivity.
Qed.

Lemma pngEncode_total (w h : Z) (cmds : list (DrawCmd F)) :
  0 < w < 2 ^ 32 -> 0 < h < 2 ^ 32 -> pngEncode (w, h) cmds = Ok cmds.
Proof.
  intros Hw Hh. unfold pngEncode.
  destruct (Z.leb_spec w 0); [lia|]. destruct (Z.leb_spec h 0); [lia|].
  destruct (Z.leb_spec (2 ^ 32) w); [lia|].
  destruct (Z.leb_spec (2 ^ 32) h); [lia|]. reflexivity.
Qed.

End RenderFacts.



(** On a non-empty input and a canvas that can be allocated, a candle
    width and gap that add up to 0 make the render panic on an integer
    division by zero, and a chart area of negative width (a canvas narrower
    than twice the padding) makes it panic on the bounds of the slice. *)
Theorem render_panics (F : Type) (fl : Float64 F)
    (candles : list (Candlestick F)) (symbol interval : string)
    (config : ChartConfig) (size : Z * Z) :
  candles <> [] ->
  newRGBA (Width config) (Height config) = Ok size ->
  let maxCandles :=
    (chartWidth (layout (F := F) config 0)
     / (CandleWidth config + CandleGap config))%int in
  ((CandleWidth config + CandleGap config)%int = 0 ->
   GenerateCandlestickChart candles symbol interval config
   = Panic "runtime error: integer divide by zero")
  /\ ((CandleWidth config + CandleGap config)%int <> 0 -> maxCandles < 0 ->
      GenerateCandlestickChart candles symbol interval config
      = Panic "runtime error: slice bounds out of range").
Proof.
  intros Hne Hsize maxCandles.
  split; [intros Htcw|intros Htcw Hneg]; unfold GenerateCandlestickChart;
    rewrite (length_nonzero candles Hne), Hsize; cbn [bind];
    destruct (priceVolumeRange candles) as [[minPrice0 maxPrice0] maxVolume];
    destruct (padRange minPrice0 maxPrice0)
      as [[minPrice maxPrice] priceRange];
    unfold visibleCandles, maxCandlesOf;
    change (totalCandleWidth (layout config 0))
      with (CandleWidth config + CandleGap config)%int.
  - rewrite Htcw. reflexivity.
  - destruct (Z.eqb_spec (CandleWidth config + CandleGap config)%int 0);
      [contradiction|].
    cbn [bind]. fold maxCandles.
    destruct (Z.ltb_spec maxCandles (Z.of_nat (List.length candles))); [|lia].
    destruct (Z.ltb_spec maxCandles 0); [|lia]. reflexivity.
Qed.

Lemma render_panics_witness :
  GenerateCandlestickChart (ramp (F := float) 3) "BTCUSDT" "1h"
    {| Width := 100; Height := 100; Padding := 60;
       CandleWidth := 4; CandleGap := 2;
       ShowVolume := true; ShowMA := true;
       MAperiods := [20; 50]; DarkMode := true |}
  = Panic "runtime error: slice bounds out of range".
Proof.
  refine (proj2 (render_panics float binary64 (ramp 3) "BTCUSDT" "1h"
                   _ (100, 100) _ _) _ _).
  - discriminate.
  - reflexivity.
  - vm_compute. discriminate.
  - vm_compute. reflexivity.
Defined.

Section LevelsFacts.

Context {F : Type} {fl : Float64 F}.

Lemma drawLevel_no_wick (lay : Layout) (maxPrice priceRange : F)
    (name : string) (level : F) (c : RGBA) :
  filter isWick (drawLevel lay maxPrice priceRange name level c) = [].
Proof. unfold drawLevel. destruct (level >? fzero)%f64; reflexivity. Qed.

Lemma drawLevels_no_wick (lay : Layout) (maxPrice priceRange : F)
    (levels : option (TradeLevels F)) :
  filter isWick (drawLevels lay maxPrice priceRange levels) = [].
Proof.
  unfold drawLevels. destruct levels as [lv|]; [|reflexivity].
  now rewrite !filter_app, !drawLevel_no_wick.
Qed.

Lemma drawPriceScale_no_wick (x top bottom : Z) (minPrice maxPrice : F)
    (c : RGBA) :
  filter isWick (drawPriceScale x top bottom minPrice maxPrice c) = [].
Proof.
  unfold drawPriceScale. apply filter_none, Forall_map, Forall_forall.
  reflexivity.
Qed.

End LevelsFacts.

(** [GenerateChartWithLevels] works on a canvas of its own, 1400 by 700
    with room for 200 candles: it returns an image for every non-empty
    input, with or without levels, and draws the last 200 bars at most. *)
Theorem levels_render_total (F : Type) (fl : Float64 F)
    (candles : list (Candlestick F)) (symbol interval : string)
    (levels : option (TradeLevels F)) :
  candles <> [] ->
  exists cmds,
    GenerateChartWithLevels candles symbol interval levels = Ok cmds
    /\ List.length (filter isWick cmds) = Nat.min 200 (List.length candles).
Proof.
  intros Hne. unfold GenerateChartWithLevels.
  rewrite (length_nonzero candles Hne).
  change (newRGBA (Width levelsConfig) (Height levelsConfig))
    with (Ok (T := Z * Z) (1400, 700)).
  cbn [bind fst snd].
  destruct (priceVolumeRange candles) as [[minPrice0 maxPrice0] maxVolume].
  destruct (extendRange levels minPrice0 maxPrice0) as [minPrice1 maxPrice1].
  destruct (padRange minPrice1 maxPrice1) as [[minPrice maxPrice] priceRange].
  destruct (visibleCandles_total (layout levelsConfig 80) candles)
    as (visible & Hvis & Hlen).
  { vm_compute. discriminate. }
  { vm_compute. discriminate. }
  change (Z.to_nat (chartWidth (layout levelsConfig 80)
                    / totalCandleWidth (layout levelsConfig 80))%int)
    with 200%nat in Hlen.
  rewrite Hvis. cbn [bind].
  assert (Hvne : visible <> []).
  { intros ->. cbn [List.length] in Hlen.
    assert (0 < List.length candles)%nat
      by (destruct candles; [congruence|cbn; lia]).
    lia. }
  destruct (lastVisible_total visible Hvne) as (lastCandle & Hlast).
  rewrite Hlast. cbn [bind].
  rewrite pngEncode_total by lia.
  eexists. split; [reflexivity|].
  cbn [app filter isWick].
  rewrite !filter_app, !length_app, drawCandles_wicks,
    drawMovingAverages_no_wick, drawLevels_no_wick, drawPriceScale_no_wick.
  rewrite Hlen. cbn [List.length filter isWick]. lia.
Qed.

Lemma levels_render_total_witness :
  exists cmds,
    GenerateChartWithLevels (ramp (F := float) 3) "BTCUSDT" "1h" None
    = Ok cmds
    /\ List.length (filter isWick cmds) = Nat.min 200 3.
Proof.
  apply (levels_render_total float binary64 (ramp 3) "BTCUSDT" "1h" None).
  discriminate.
Defined.

(** * Further properties of the pixel rows, in exact arithmetic *)

(** The pixel row of a price of the range is the top of the chart plus the
    integer part of its depth. *)
Lemma priceY_exact_floor (chartTop chartHeight : Z)
    (minPrice maxPrice price : Q) :
  (minPrice < maxPrice)%Q ->
  (minPrice <= price)%Q -> (price <= maxPrice)%Q ->
  0 <= chartHeight ->
  Int.in_range chartTop -> Int.in_range chartHeight ->
  Int.in_range (chartTop + chartHeight) ->
  priceY (F := Q) chartTop maxPrice (maxPrice - minPrice)%Q
    (of_int chartHeight) price
  = chartTop
    + Qfloor ((maxPrice - price) / (maxPrice - minPrice)
              * inject_Z chartHeight)%Q.
Proof.
  intros Hrange Hlo Hhi Hheight Htop Hh Hbottom.
  destruct (depth_bounds maxPrice minPrice chartHeight Hrange Hheight
              price Hlo Hhi) as [H0 HH].
  cbv beta zeta in H0, HH.
  assert (Hf : 0 <= Qfloor ((maxPrice - price) / (maxPrice - minPrice)
                            * inject_Z chartHeight)%Q <= chartHeight).
  { split.
    - change 0 with (Qfloor 0). now apply Qfloor_resp_le.
    - apply Z.le_trans with (Qfloor (inject_Z chartHeight));
        [now apply Qfloor_resp_le|rewrite Qfloor_Z; lia]. }
  unfold priceY. cbn [fsub fdiv fmul of_int exactQ]. unfold Int.add.
  unfold Int.in_range, Int.min_int, Int.max_int in *.
  rewrite exact_to_int_floor; [|exact H0|].
  - apply wrap_id. unfold Int.in_range, Int.min_int, Int.max_int. lia.
  - unfold Int.in_range, Int.min_int, Int.max_int. lia.
Qed.

(** In exact arithmetic the maximum of the range is drawn on the top row
    of the chart and the minimum on the row [chartHeight] below it. *)
Theorem priceY_endpoints (chartTop chartHeight : Z) (minPrice maxPrice : Q) :
  (minPrice < maxPrice)%Q ->
  0 <= chartHeight ->
  Int.in_range chartTop -> Int.in_range chartHeight ->
  Int.in_range (chartTop + chartHeight) ->
  priceY (F := Q) chartTop maxPrice (maxPrice - minPrice)%Q
    (of_int chartHeight) maxPrice = chartTop
  /\ priceY (F := Q) chartTop maxPrice (maxPrice - minPrice)%Q
       (of_int chartHeight) minPrice = chartTop + chartHeight.
Proof.
  intros Hrange Hheight Htop Hh Hbottom. split.
  - rewrite (priceY_exact_floor chartTop chartHeight minPrice maxPrice
               maxPrice Hrange (Qlt_le_weak _ _ Hrange) (Qle_refl _)
               Hheight Htop Hh Hbottom).
    rewrite (Qfloor_comp _ 0%Q)
      by (exact (depth_top maxPrice minPrice chartHeight)).
    cbn. lia.
  - rewrite (priceY_exact_floor chartTop chartHeight minPrice maxPrice
               minPrice Hrange (Qle_refl _) (Qlt_le_weak _ _ Hrange)
               Hheight Htop Hh Hbottom).
    rewrite (Qfloor_comp _ (inject_Z chartHeight))
      by (exact (depth_bottom maxPrice minPrice chartHeight Hrange)).
    now rewrite Qfloor_Z.
Qed.

Lemma priceY_endpoints_witness :
  priceY (F := Q) 60 (221 # 2) ((221 # 2) - (199 # 2))%Q (of_int 345)
    (221 # 2) = 60.
Proof.
  refine (proj1 (priceY_endpoints 60 345 (199 # 2) (221 # 2) _ _ _ _ _));
    try (unfold Int.in_range, Int.min_int, Int.max_int; lia).
  reflexivity.
Defined.




(** * Time frames *)

(** Converting a Binance interval to Yahoo and back gives the interval
    again for 1m, 5m, 15m, 30m, 1h, 1d and 1w, and 1h for everything else
    (4h included, which Yahoo does not have). Converting a Yahoo interval
    to Binance and back gives it again for 1m, 5m, 15m, 30m, 1h, 1d and
    1wk, and 1h for everything else (2m, 90m, 1mo and 3mo included). *)
Theorem interval_round_trips :
  (forall bi : string,
     ConvertYahooToBinanceInterval (ConvertBinanceToYahooInterval bi)
     = if existsb (String.eqb bi)
            [Interval1m; Interval5m; Interval15m; Interval30m; Interval1h;
             Interval1d; Interval1w]
       then bi else Interval1h)
  /\ (forall yi : string,
        ConvertBinanceToYahooInterval (ConvertYahooToBinanceInterval yi)
        = if existsb (String.eqb yi)
               [YahooInterval1m; YahooInterval5m; YahooInterval15m;
                YahooInterval30m; YahooInterval1h; YahooInterval1d;
                YahooInterval1wk]
          then yi else YahooInterval1h).
Proof.
  split; intros s;
    unfold ConvertBinanceToYahooInterval, ConvertYahooToBinanceInterval;
    cbn [switch existsb];
    repeat match goal with
           | |- context [String.eqb s ?k] =>
               destruct (String.eqb_spec s k) as [->|];
               [reflexivity|cbn [orb]]
           end;
    reflexivity.
Qed.

(** Every mode gets the time frames 5m, 15m, 1h, 4h and 1d in this order,
    and every mode but scalping gets 1w after them; each of them has a
    display name of its own. *)
Theorem timeframes_for_mode (mode : string) :
  GetTimeframesForMode mode
  = [Interval5m; Interval15m; Interval1h; Interval4h; Interval1d]
    ++ (if String.eqb mode TradingModeScalping then [] else [Interval1w])
  /\ Forall (fun tf => GetTimeframeName tf <> tf) (GetTimeframesForMode mode).
Proof.
  unfold GetTimeframesForMode. cbn [switch].
  repeat match goal with
         | |- context [String.eqb mode ?k] =>
             destruct (String.eqb_spec mode k) as [->|]
         end;
    (split; [reflexivity|repeat constructor; discriminate]).
Qed.

(** * Fetching every time frame *)

Section FetchFacts.

Context {F : Type} {fl : Float64 F}.

Variable fetch : string -> string -> Z -> outcome (list (Candlestick F)).

Lemma fetchSummaries_all (symbol : string) (candleLimit : Z)
    (data : string -> list (Candlestick F)) (timeframes : list string) :
  forall summaries,
    (forall tf, In tf timeframes ->
       fetch symbol tf candleLimit = Ok (data tf)) ->
    fetchSummaries fetch symbol candleLimit timeframes summaries
    = Ok (summaries
          ++ map (fun tf => AnalyzeCandlestickData (data tf) tf) timeframes).
Proof.
  induction timeframes as [|tf rest IH]; intros summaries Hall.
  - cbn. now rewrite app_nil_r.
  - cbn [fetchSummaries map]. rewrite (Hall tf) by now left.
    rewrite IH by (intros t Ht; apply Hall; now right).
    now rewrite <- app_assoc.
Qed.

Lemma fetchSummaries_first_error (symbol : string) (candleLimit : Z)
    (before : list string) (tf : string) (after : list string)
    (msg : string) :
  forall summaries,
    (forall t, In t before ->
       exists candles, fetch symbol t candleLimit = Ok candles) ->
    fetch symbol tf candleLimit = Err msg ->
    fetchSummaries fetch symbol candleLimit (before ++ tf :: after) summaries
    = Err ("failed to fetch " ++ tf ++ ": " ++ msg)%string.
Proof.
  induction before as [|t before IH]; intros summaries Hok Herr.
  - cbn [app fetchSummaries]. now rewrite Herr.
  - cbn [app fetchSummaries].
    destruct (Hok t ltac:(now left)) as (candles & ->).
    apply IH; [|exact Herr]. intros t' Ht'. apply Hok. now right.
Qed.

Lemma generateCharts_all (symbol : string) (candleLimit : Z)
    (config : ChartConfig)
    (data : string -> list (Candlestick F)) (timeframes : list string) :
  (forall candles interval, candles <> [] ->
     exists cmds,
       GenerateCandlestickChart candles symbol interval config = Ok cmds) ->
  forall charts,
    (forall tf, In tf timeframes ->
       fetch symbol tf candleLimit = Ok (data tf) /\ data tf <> []) ->
    exists more,
      generateCharts fetch symbol candleLimit config timeframes charts
      = Ok (charts ++ more)
      /\ map CInterval more = timeframes
      /\ map Candles more = map data timeframes
      /\ forall chart, In chart more ->
           GenerateCandlestickChart (Candles chart) symbol (CInterval chart)
             config = Ok (ImageData chart).
Proof.
  intros Hrender.
  induction timeframes as [|tf rest IH]; intros charts Hall.
  - exists []. cbn. rewrite app_nil_r. repeat split. contradiction.
  - cbn [generateCharts].
    destruct (Hall tf ltac:(now left)) as (Hfetch & Hne). rewrite Hfetch.
    destruct (Hrender (data tf) tf Hne) as (cmds & Hcmds). rewrite Hcmds.
    destruct (IH (charts ++ [{| CInterval := tf; ImageData := cmds;
                                Candles := data tf |}]))
      as (more & Hrun & Hint & Hcan & Himg).
    { intros t Ht. apply Hall. now right. }
    exists ({| CInterval := tf; ImageData := cmds; Candles := data tf |}
            :: more).
    rewrite Hrun, <- app_assoc. cbn [app map CInterval Candles].
    rewrite Hint, Hcan. repeat split.
    intros chart [<-|Hin]; [exact Hcmds|now apply Himg].
Qed.

Lemma generateCharts_first_empty (symbol : string) (candleLimit : Z)
    (config : ChartConfig) (before : list string) (tf : string)
    (after : list string) :
  forall charts,
    (forall t, In t before ->
       exists candles cmds,
         fetch symbol t candleLimit = Ok candles
         /\ GenerateCandlestickChart candles symbol t config = Ok cmds) ->
    fetch symbol tf candleLimit = Ok [] ->
    generateCharts fetch symbol candleLimit config (before ++ tf :: after)
      charts
    = Err ("failed to generate " ++ tf
           ++ " chart: no candle data to render")%string.
Proof.
  induction before as [|t before IH]; intros charts Hok Hempty.
  - cbn [app generateCharts]. rewrite Hempty. reflexivity.
  - cbn [app generateCharts].
    destruct (Hok t ltac:(now left)) as (candles & cmds & -> & ->).
    apply IH; [|exact Hempty]. intros t' Ht'. apply Hok. now right.
Qed.

End FetchFacts.

(** [FetchMultiTimeframeData] returns one summary per time frame of the
    mode, in their order, each the summary of the bars fetched for it, when
    every fetch succeeds; the first fetch that fails ends the call with the
    error "failed to fetch <tf>: <cause>" and no summary. A fetch that
    returns no bar is no error: its summary is the zero summary. *)
Theorem fetch_summaries_all_or_first_error (F : Type) (fl : Float64 F)
    (fetch : string -> string -> Z -> outcome (list (Candlestick F)))
    (symbol mode : string) (candleLimit : Z) :
  (forall data : string -> list (Candlestick F),
     (forall tf, In tf (GetTimeframesForMode mode) ->
        fetch symbol tf candleLimit = Ok (data tf)) ->
     FetchMultiTimeframeData fetch symbol mode candleLimit
     = Ok (map (fun tf => AnalyzeCandlestickData (data tf) tf)
             (GetTimeframesForMode mode)))
  /\ (forall before tf after msg,
        GetTimeframesForMode mode = before ++ tf :: after ->
        (forall t, In t before ->
           exists candles, fetch symbol t candleLimit = Ok candles) ->
        fetch symbol tf candleLimit = Err msg ->
        FetchMultiTimeframeData fetch symbol mode candleLimit
        = Err ("failed to fetch " ++ tf ++ ": " ++ msg)%string)
  /\ (forall tf, AnalyzeCandlestickData (F := F) [] tf = zeroSummary).
Proof.
  unfold FetchMultiTimeframeData. split; [|split].
  - intros data Hall.
    now rewrite (fetchSummaries_all fetch symbol candleLimit data).
  - intros before tf after msg -> Hok Herr.
    now apply fetchSummaries_first_error.
  - reflexivity.
Qed.

Lemma fetch_summaries_all_or_first_error_witness :
  FetchMultiTimeframeData
    (fun _ tf _ => if String.eqb tf "1h" then Err "timeout"
                   else Ok (ramp (F := float) 3))
    "BTCUSDT" "swing" 100
  = Err "failed to fetch 1h: timeout".
Proof.
  refine (proj1 (proj2
            (fetch_summaries_all_or_first_error float binary64 _
               "BTCUSDT" "swing" 100))
            ["5m"; "15m"]%string "1h"%string ["4h"; "1d"; "1w"]%string
            "timeout"%string _ _ _).
  - reflexivity.
  - intros t [<-|[<-|[]]]; eexists; reflexivity.
  - reflexivity.
Defined.

(** The default canvas, 1200 by 600 with room for 180 candles, renders
    every non-empty input. *)
Lemma default_render_Ok (F : Type) (fl : Float64 F)
    (candles : list (Candlestick F)) (symbol interval : string) :
  candles <> [] ->
  exists cmds,
    GenerateCandlestickChart candles symbol interval DefaultChartConfig
    = Ok cmds.
Proof.
  intros Hne. unfold GenerateCandlestickChart.
  rewrite (length_nonzero candles Hne).
  rewrite newRGBA_Ok by (vm_compute; discriminate). cbn [bind fst snd].
  destruct (priceVolumeRange candles) as [[minPrice0 maxPrice0] maxVolume].
  destruct (padRange minPrice0 maxPrice0) as [[minPrice maxPrice] priceRange].
  destruct (visibleCandles_total (layout DefaultChartConfig 0) candles)
    as (visible & Hvis & Hlen); [vm_compute; discriminate
                                |vm_compute; discriminate|].
  rewrite Hvis. cbn [bind].
  assert (Hvne : visible <> []).
  { intros ->. cbn [List.length] in Hlen.
    assert (0 < List.length candles)%nat
      by (destruct candles; [congruence|cbn; lia]).
    assert (Hroom : (chartWidth (layout (F := F) DefaultChartConfig 0)
                     / totalCandleWidth (layout (F := F) DefaultChartConfig 0)
                    )%int = 180) by reflexivity.
    rewrite Hroom in Hlen. lia. }
  destruct (lastVisible_total visible Hvne) as (lastCandle & Hlast).
  rewrite Hlast. cbn [bind].
  rewrite pngEncode_total by (split; reflexivity). eexists. reflexivity.
Qed.

(** [GenerateMultiTimeframeCharts] returns one chart per time frame of the
    mode, in their order, when every fetch returns at least one bar: each
    chart is the default render of the bars fetched for it and carries all
    of these bars, also those the render did not draw. The first fetch
    that returns no bar ends the call with the error "failed to generate
    <tf> chart: no candle data to render". *)
Theorem charts_all_or_first_empty (F : Type) (fl : Float64 F)
    (fetch : string -> string -> Z -> outcome (list (Candlestick F)))
    (symbol mode : string) (candleLimit : Z) :
  (forall data : string -> list (Candlestick F),
     (forall tf, In tf (GetTimeframesForMode mode) ->
        fetch symbol tf candleLimit = Ok (data tf) /\ data tf <> []) ->
     exists charts,
       GenerateMultiTimeframeCharts fetch symbol mode candleLimit = Ok charts
       /\ map CInterval charts = GetTimeframesForMode mode
       /\ map Candles charts = map data (GetTimeframesForMode mode)
       /\ forall chart, In chart charts ->
            GenerateCandlestickChart (Candles chart) symbol (CInterval chart)
              DefaultChartConfig = Ok (ImageData chart))
  /\ (forall before tf after,
        GetTimeframesForMode mode = before ++ tf :: after ->
        (forall t, In t before ->
           exists candles, fetch symbol t candleLimit = Ok candles
                           /\ candles <> []) ->
        fetch symbol tf candleLimit = Ok [] ->
        GenerateMultiTimeframeCharts fetch symbol mode candleLimit
        = Err ("failed to generate " ++ tf
               ++ " chart: no candle data to render")%string).
Proof.
  assert (Hrender : forall (candles : list (Candlestick F)) interval,
             candles <> [] ->
             exists cmds,
               GenerateCandlestickChart candles symbol interval
                 DefaultChartConfig = Ok cmds).
  { intros candles interval Hne. now apply default_render_Ok. }
  unfold GenerateMultiTimeframeCharts. split.
  - intros data Hall.
    destruct (generateCharts_all fetch symbol candleLimit DefaultChartConfig
                data (GetTimeframesForMode mode) Hrender [] Hall)
      as (charts & Hrun & Hrest).
    exists charts. split; [exact Hrun|exact Hrest].
  - intros before tf after -> Hok Hempty.
    apply generateCharts_first_empty; [|exact Hempty].
    intros t Ht. destruct (Hok t Ht) as (candles & Hfetch & Hne).
    destruct (Hrender candles t Hne) as (cmds & Hcmds).
    now exists candles, cmds.
Qed.

Lemma forex_timeframes_all (mode : string) :
  GetForexTimeframesForMode mode
  = [YahooInterval1m; YahooInterval2m; YahooInterval5m; YahooInterval15m;
     YahooInterval30m; YahooInterval1h; YahooInterval90m; YahooInterval1d;
     YahooInterval1wk; YahooInterval1mo; YahooInterval3mo].
Proof.
  unfold GetForexTimeframesForMode. cbv zeta. cbn [switch].
  destruct (String.eqb mode TradingModeScalping); [reflexivity|].
  destruct (String.eqb mode TradingModeSwing); [reflexivity|].
  destruct (String.eqb mode TradingModeIntraday); reflexivity.
Qed.

Lemma analyze_interval (F : Type) (fl : Float64 F)
    (candles : list (Candlestick F)) (interval : string) :
  candles <> [] ->
  Interval (AnalyzeCandlestickData candles interval) = interval.
Proof.
  intros Hne. unfold AnalyzeCandlestickData.
  destruct candles as [|c rest]; [congruence|].
  cbn [List.length Nat.eqb].
  destruct (scanHighLowVolume (c :: rest)) as [[hi lo] vol].
  reflexivity.
Qed.

Lemma fetchForexSummaries_all (F : Type) (fl : Float64 F)
    (fetch : string -> string -> Z -> outcome (list (Candlestick F)))
    (symbol : string) (candleLimit : Z)
    (data : string -> list (Candlestick F)) (timeframes : list string) :
  forall summaries,
    (forall tf, In tf timeframes ->
       fetch symbol tf candleLimit = Ok (data tf)) ->
    fetchForexSummaries fetch symbol candleLimit timeframes summaries
    = Ok (summaries
          ++ map (fun tf => AnalyzeCandlestickData (data tf)
                              (ConvertYahooToBinanceInterval tf))
               timeframes).
Proof.
  induction timeframes as [|tf rest IH]; intros summaries Hall.
  - cbn. now rewrite app_nil_r.
  - cbn [fetchForexSummaries map]. rewrite (Hall tf) by now left.
    rewrite IH by (intros t Ht; apply Hall; now right).
    now rewrite <- app_assoc.
Qed.

(** [FetchForexMultiTimeframeData] takes no account of the trading mode:
    when the eleven fetches succeed it returns eleven summaries, the same
    for every mode, each the summary of the bars fetched for its Yahoo
    time frame; the summaries of non-empty fetches are labelled with the
    converted interval (1m, 2m, 5m, 15m, 30m, 1h, 90m, 1d, 1w, 1M, 3M)
    and not with the Yahoo name that was fetched. *)
Theorem forex_summaries_ignore_mode (F : Type) (fl : Float64 F)
    (fetch : string -> string -> Z -> outcome (list (Candlestick F)))
    (symbol : string) (candleLimit : Z) :
  (forall mode mode',
     FetchForexMultiTimeframeData fetch symbol mode candleLimit
     = FetchForexMultiTimeframeData fetch symbol mode' candleLimit)
  /\ (forall mode (data : string -> list (Candlestick F)),
        (forall tf, In tf (GetForexTimeframesForMode mode) ->
           fetch symbol tf candleLimit = Ok (data tf) /\ data tf <> []) ->
        exists summaries,
          FetchForexMultiTimeframeData fetch symbol mode candleLimit
          = Ok summaries
          /\ summaries
             = map (fun tf => AnalyzeCandlestickData (data tf)
                                (ConvertYahooToBinanceInterval tf))
                 (GetForexTimeframesForMode mode)
          /\ map (@Interval F) summaries
             = ["1m"; "2m"; "5m"; "15m"; "30m"; "1h"; "90m"; "1d"; "1w";
                "1M"; "3M"]%string).
Proof.
  split.
  - intros mode mode'. unfold FetchForexMultiTimeframeData.
    now rewrite !forex_timeframes_all.
  - intros mode data Hall. unfold FetchForexMultiTimeframeData.
    rewrite (fetchForexSummaries_all F fl fetch symbol candleLimit data)
      by (intros tf Htf; now apply Hall).
    eexists. split; [reflexivity|]. split; [reflexivity|].
    cbn [app]. rewrite forex_timeframes_all in Hall |- *.
    cbn [map].
    rewrite !analyze_interval by (apply Hall; cbn; tauto).
    reflexivity.
Qed.

(** * Bresenham's line *)

Lemma abs_exact (z : Z) :
  - 2 ^ 62 <= z <= 2 ^ 62 -> abs (Int.wrap z) = Z.abs z.
Proof.
  intros Hz. rewrite wrap_id
    by (unfold Int.in_range, Int.min_int, Int.max_int; lia).
  unfold abs. destruct (z <? 0) eqn:E.
  - apply Z.ltb_lt in E. rewrite wrap_id
      by (unfold Int.in_range, Int.min_int, Int.max_int; lia). lia.
  - apply Z.ltb_ge in E. lia.
Qed.

Section Bresenham.

Variables (x1 y1 dx dy sx sy : Z) (c : RGBA).

Hypothesis Hdx : 0 <= dx <= 2 ^ 30.
Hypothesis Hdy : 0 <= dy <= 2 ^ 30.
Hypothesis Hsx : sx = 1 \/ sx = -1.
Hypothesis Hsy : sy = 1 \/ sy = -1.
Hypothesis Hx1 : - 2 ^ 29 <= x1 <= 2 ^ 29.
Hypothesis Hy1 : - 2 ^ 29 <= y1 <= 2 ^ 29.

(** The state of the loop after [a] steps along x and [b] steps along y. *)
Let colAt (a : Z) : Z := x1 - sx * (dx - a).
Let rowAt (b : Z) : Z := y1 - sy * (dy - b).
Let errAt (a b : Z) : Z := dx - dy - a * dy + b * dx.

Lemma bresenhamLoop_runs :
  forall (fuel : nat) (a b : Z),
    0 <= a <= dx -> 0 <= b <= dy ->
    (dx - a) + (dy - b) < Z.of_nat fuel ->
    exists pixels,
      bresenhamLoop fuel (colAt a) (rowAt b) x1 y1 dx dy sx sy (errAt a b) c
      = Some pixels
      /\ hd_error pixels = Some (colAt a, rowAt b, c)
      /\ (exists init, pixels = init ++ [(x1, y1, c)])
      /\ Z.max (dx - a) (dy - b) + 1 <= Z.of_nat (List.length pixels)
         <= (dx - a) + (dy - b) + 1
      /\ Forall (fun p => exists a' b',
                   a <= a' <= dx /\ b <= b' <= dy
                   /\ p = (colAt a', rowAt b', c)) pixels
      /\ connected pixels = true.
Proof.
  induction fuel as [|fuel IH]; intros a b Ha Hb Hfuel; [lia|].
  cbn [bresenhamLoop].
  destruct ((colAt a =? x1) && (rowAt b =? y1)) eqn:Eend.
  - apply andb_prop in Eend as [Ex Ey].
    apply Z.eqb_eq in Ex, Ey. subst colAt rowAt. cbv beta in *.
    assert (a = dx) by nia. assert (b = dy) by nia. subst a b.
    eexists. split; [reflexivity|]. split; [reflexivity|].
    split; [|split; [cbn [List.length]; lia|split; [|reflexivity]]].
    + exists []. cbn [app]. replace (dx - dx) with 0 by lia.
      replace (dy - dy) with 0 by lia.
      now rewrite !Z.mul_0_r, !Z.sub_0_r.
    + constructor; [|constructor]. exists dx, dy. repeat split; lia.
  - assert (Hnot : a < dx \/ b < dy).
    { apply andb_false_iff in Eend as [E|E]; apply Z.eqb_neq in E;
        subst colAt rowAt; cbv beta in E.
      - left. destruct (Z.eq_dec a dx) as [->|]; [|lia].
        exfalso. apply E. replace (dx - dx) with 0 by lia. lia.
      - right. destruct (Z.eq_dec b dy) as [->|]; [|lia].
        exfalso. apply E. replace (dy - dy) with 0 by lia. lia. }
    assert (Hprod : forall u v, 0 <= u <= 2 ^ 30 -> 0 <= v <= 2 ^ 30 ->
                           0 <= u * v <= 2 ^ 60).
    { intros u v Hu Hv. split; [apply Z.mul_nonneg_nonneg; lia|].
      change (2 ^ 60) with (2 ^ 30 * 2 ^ 30).
      apply Z.mul_le_mono_nonneg; lia. }
    assert (Hady : 0 <= a * dy <= 2 ^ 60) by (apply Hprod; lia).
    assert (Hbdx : 0 <= b * dx <= 2 ^ 60) by (apply Hprod; lia).
    assert (He2 : (errAt a b * 2)%int = 2 * errAt a b).
    { unfold Int.mul. rewrite wrap_id; [lia|].
      unfold Int.in_range, Int.min_int, Int.max_int. subst errAt.
      cbv beta. lia. }
    assert (Hneg : Int.wrap (- dy) = - dy).
    { apply wrap_id. unfold Int.in_range, Int.min_int, Int.max_int. lia. }
    cbv zeta. rewrite He2, Hneg.
    assert (HstepX : (2 * errAt a b >? - dy) = true -> a < dx).
    { intros E. apply Z.gtb_lt in E. subst errAt. cbv beta in E.
      destruct (Z.eq_dec a dx) as [->|]; [|lia]. exfalso.
      assert (b < dy) by lia.
      assert (0 <= dx * (dy - 1 - b)) by (apply Z.mul_nonneg_nonneg; lia).
      nia. }
    assert (HstepY : (2 * errAt a b <? dx) = true -> b < dy).
    { intros E. apply Z.ltb_lt in E. subst errAt. cbv beta in E.
      destruct (Z.eq_dec b dy) as [->|]; [|lia]. exfalso.
      assert (a < dx) by lia.
      assert (0 <= dy * (dx - 1 - a)) by (apply Z.mul_nonneg_nonneg; lia).
      nia. }
    assert (Hmove : (2 * errAt a b >? - dy) = true
                    \/ (2 * errAt a b <? dx) = true).
    { destruct (2 * errAt a b >? - dy) eqn:E1; [now left|right].
      apply Z.ltb_lt. rewrite Z.gtb_ltb in E1. apply Z.ltb_ge in E1. lia. }
    set (stepX := 2 * errAt a b >? - dy) in *.
    set (stepY := 2 * errAt a b <? dx) in *.
    set (a' := if stepX then a + 1 else a).
    set (b' := if stepY then b + 1 else b).
    assert (Ha' : a <= a' <= a + 1 /\ a' <= dx).
    { subst a'. destruct stepX; [specialize (HstepX eq_refl)|]; lia. }
    assert (Hb' : b <= b' <= b + 1 /\ b' <= dy).
    { subst b'. destruct stepY; [specialize (HstepY eq_refl)|]; lia. }
    assert (Hprog : a < a' \/ b < b').
    { subst a' b'. destruct Hmove as [E|E]; rewrite E; lia. }
    assert (Ecol : (if stepX then (colAt a + sx)%int else colAt a)
                   = colAt a').
    { subst a' colAt. cbv beta. destruct stepX; [|reflexivity].
      unfold Int.add. rewrite wrap_id
        by (unfold Int.in_range, Int.min_int, Int.max_int; nia). nia. }
    assert (Erow : (if stepY then (rowAt b + sy)%int else rowAt b)
                   = rowAt b').
    { subst b' rowAt. cbv beta. destruct stepY; [|reflexivity].
      unfold Int.add. rewrite wrap_id
        by (unfold Int.in_range, Int.min_int, Int.max_int; nia). nia. }
    assert (Eerr1 : (if stepX then (errAt a b - dy)%int else errAt a b)
                    = errAt a' b).
    { subst a' errAt. cbv beta. destruct stepX; [|reflexivity].
      unfold Int.sub. rewrite wrap_id
        by (unfold Int.in_range, Int.min_int, Int.max_int; lia). lia. }
    assert (Ha'dy : 0 <= a' * dy <= 2 ^ 60) by (apply Hprod; lia).
    assert (Eerr2 : (if stepY then (errAt a' b + dx)%int else errAt a' b)
                    = errAt a' b').
    { subst b' errAt. cbv beta. destruct stepY; [|reflexivity].
      unfold Int.add. rewrite wrap_id
        by (unfold Int.in_range, Int.min_int, Int.max_int; lia). lia. }
    rewrite Ecol, Erow, Eerr1, Eerr2.
    destruct (IH a' b') as (rest & Hrun & Hhd & Hlast & Hlen & Hall & Hconn);
      [lia|lia|lia|].
    rewrite Hrun. cbn [option_map].
    exists ((colAt a, rowAt b, c) :: rest).
    split; [reflexivity|]. split; [reflexivity|].
    destruct rest as [|q rest]; [discriminate|].
    cbn [hd_error] in Hhd. injection Hhd as ->.
    split; [|split; [|split]].
    + destruct Hlast as (init & ->).
      exists ((colAt a, rowAt b, c) :: init). reflexivity.
    + cbn [List.length] in *. lia.
    + constructor.
      * exists a, b. repeat split; lia.
      * eapply Forall_impl; [|exact Hall].
        intros p (a2 & b2 & Ha2 & Hb2 & ->). exists a2, b2.
        repeat split; lia.
    + change (adjacent (colAt a, rowAt b, c) (colAt a', rowAt b', c)
              && connected ((colAt a', rowAt b', c) :: rest) = true).
      apply andb_true_intro. split; [|exact Hconn].
      unfold adjacent, pixelCol, pixelRow. cbn [fst snd].
      subst colAt rowAt. cbv beta.
      apply andb_true_intro. split; [apply andb_true_intro; split|].
      * apply Z.leb_le. nia.
      * apply Z.leb_le. nia.
      * apply negb_true_iff, andb_false_iff.
        destruct Hprog; [left|right]; apply Z.eqb_neq; nia.
Qed.

End Bresenham.

(** [drawLineBresenham], whose loop has no bound of its own, terminates for
    end points within 2^29 of the origin, after at most |dx| + |dy| + 1
    iterations: it sets the start point first and the end point last,
    between max(|dx|, |dy|) + 1 and |dx| + |dy| + 1 pixels in all, every one
    in the color of the line and inside the rectangle spanned by the two end
    points, and each pixel touches the next one. *)
Theorem bresenham_line_reaches_end (x0 y0 x1 y1 : Z) (c : RGBA)
    (fuel : nat) :
  Z.abs x0 <= 2 ^ 29 -> Z.abs y0 <= 2 ^ 29 ->
  Z.abs x1 <= 2 ^ 29 -> Z.abs y1 <= 2 ^ 29 ->
  Z.abs (x1 - x0) + Z.abs (y1 - y0) < Z.of_nat fuel ->
  exists pixels,
    drawLineBresenham fuel x0 y0 x1 y1 c = Some pixels
    /\ hd_error pixels = Some (x0, y0, c)
    /\ last pixels (x0, y0, c) = (x1, y1, c)
    /\ Z.max (Z.abs (x1 - x0)) (Z.abs (y1 - y0)) + 1
       <= Z.of_nat (List.length pixels)
       <= Z.abs (x1 - x0) + Z.abs (y1 - y0) + 1
    /\ Forall (fun p => Z.min x0 x1 <= pixelCol p <= Z.max x0 x1
                        /\ Z.min y0 y1 <= pixelRow p <= Z.max y0 y1
                        /\ snd p = c) pixels
    /\ connected pixels = true.
Proof.
  intros Hx0 Hy0 Hx1 Hy1 Hfuel.
  unfold drawLineBresenham. cbv zeta.
  unfold Int.sub. rewrite !abs_exact by lia.
  remember (Z.abs (x1 - x0)) as dx eqn:Edx.
  remember (Z.abs (y1 - y0)) as dy eqn:Edy.
  remember (if x0 >=? x1 then -1 else 1) as sx eqn:Esx.
  remember (if y0 >=? y1 then -1 else 1) as sy eqn:Esy.
  assert (Hsx : sx = 1 \/ sx = -1) by (subst sx; destruct (x0 >=? x1); auto).
  assert (Hsy : sy = 1 \/ sy = -1) by (subst sy; destruct (y0 >=? y1); auto).
  assert (Ex0 : x1 - sx * (dx - 0) = x0).
  { subst sx dx. destruct (x0 >=? x1) eqn:E;
      [apply Z.geb_le in E|rewrite Z.geb_leb in E; apply Z.leb_gt in E]; lia. }
  assert (Ey0 : y1 - sy * (dy - 0) = y0).
  { subst sy dy. destruct (y0 >=? y1) eqn:E;
      [apply Z.geb_le in E|rewrite Z.geb_leb in E; apply Z.leb_gt in E]; lia. }
  assert (Eerr : Int.wrap (dx - dy) = dx - dy - 0 * dy + 0 * dx).
  { rewrite wrap_id; [lia|].
    unfold Int.in_range, Int.min_int, Int.max_int. lia. }
  rewrite Eerr.
  pose proof (bresenhamLoop_runs x1 y1 dx dy sx sy c ltac:(lia) ltac:(lia)
                Hsx Hsy ltac:(lia) ltac:(lia) fuel 0 0 ltac:(lia) ltac:(lia)
                ltac:(lia)) as Hrun.
  cbv zeta beta in Hrun. rewrite Ex0, Ey0 in Hrun.
  destruct Hrun as (pixels & Hrun & Hhd & (init & Hlast) & Hlen & Hall & Hconn).
  exists pixels. split; [exact Hrun|]. split; [exact Hhd|].
  split; [rewrite Hlast; apply last_last|].
  split; [lia|]. split; [|exact Hconn].
  eapply Forall_impl; [|exact Hall].
  intros p (a & b & Ha & Hb & ->). unfold pixelCol, pixelRow. cbn [fst snd].
  split; [|split; [|reflexivity]].
  - clear Ey0 Hall. destruct Hsx as [->| ->]; lia.
  - clear Ex0 Hall. destruct Hsy as [->| ->]; lia.
Qed.

Lemma bresenham_line_reaches_end_witness :
  exists pixels,
    drawLineBresenham 6 0 0 3 (-2) colorMA20 = Some pixels
    /\ hd_error pixels = Some (0, 0, colorMA20)
    /\ last pixels (0, 0, colorMA20) = (3, -2, colorMA20)
    /\ Z.max (Z.abs (3 - 0)) (Z.abs (-2 - 0)) + 1
       <= Z.of_nat (List.length pixels)
       <= Z.abs (3 - 0) + Z.abs (-2 - 0) + 1
    /\ Forall (fun p => Z.min 0 3 <= pixelCol p <= Z.max 0 3
                        /\ Z.min 0 (-2) <= pixelRow p <= Z.max 0 (-2)
                        /\ snd p = colorMA20) pixels
    /\ connected pixels = true.
Proof.
  apply (bresenham_line_reaches_end 0 0 3 (-2) colorMA20 6); cbn; lia.
Defined.

(** * The technical summary *)

Lemma bodyGainsLosses_nonneg (candles : list (Candlestick Q))
    (idx : list nat) :
  forall acc,
    (0 <= fst acc)%Q -> (0 <= snd acc)%Q ->
    (0 <= fst (fold_left (momentumStep candles) idx acc))%Q
    /\ (0 <= snd (fold_left (momentumStep candles) idx acc))%Q.
Proof.
  induction idx as [|i idx IH]; intros [gains losses] Hg Hl; [now split|].
  cbn [fold_left]. apply IH; unfold momentumStep; cbn [fst snd] in *;
    destruct (_ >? fzero)%f64 eqn:E; cbn [fst snd]; try assumption.
  - apply exact_ltb_iff in E. cbn [fsub fadd exactQ fzero fconst] in *.
    unfold fzero in E. cbn in E. lra.
  - cbn [fsub fadd exactQ] in *. unfold fabs, exactQ_abs.
    pose proof (Qabs.Qabs_nonneg (Close (at_ candles i) - Open (at_ candles i))).
    lra.
Qed.

Lemma momentumStep_rising (candles : list (Candlestick Q)) (idx : list nat) :
  (forall i, In i idx ->
     (Open (at_ candles i) <= Close (at_ candles i))%Q) ->
  forall acc,
    (snd (fold_left (momentumStep candles) idx acc) == snd acc)%Q.
Proof.
  induction idx as [|i idx IH]; intros Hup [gains losses]; [reflexivity|].
  cbn [fold_left]. rewrite IH by (intros j Hj; apply Hup; now right).
  specialize (Hup i ltac:(now left)).
  unfold momentumStep.
  destruct (_ >? fzero)%f64 eqn:E; cbn [fst snd]; [reflexivity|].
  apply exact_ltb_false in E. unfold fzero in E.
  cbn [fsub fadd fconst exactQ] in *. unfold fabs, exactQ_abs.
  assert (Hzero : (Close (at_ candles i) - Open (at_ candles i) == 0)%Q)
    by lra.
  rewrite Hzero. cbn. lra.
Qed.

Lemma momentumStep_falling (candles : list (Candlestick Q))
    (idx : list nat) :
  (forall i, In i idx ->
     (Close (at_ candles i) <= Open (at_ candles i))%Q) ->
  forall acc,
    fst (fold_left (momentumStep candles) idx acc) = fst acc
    /\ (snd acc <= snd (fold_left (momentumStep candles) idx acc))%Q
    /\ ((exists i, In i idx
                   /\ (Close (at_ candles i) < Open (at_ candles i))%Q) ->
        (snd acc < snd (fold_left (momentumStep candles) idx acc))%Q).
Proof.
  induction idx as [|i idx IH]; intros Hdown [gains losses].
  - cbn. split; [reflexivity|]. split; [lra|]. now intros (i & [] & _).
  - cbn [fold_left].
    pose proof (Hdown i ltac:(now left)) as Hi.
    assert (Hstep : momentumStep candles (gains, losses) i
                    = (gains,
                       (losses
                        + Qabs.Qabs (Close (at_ candles i)
                                - Open (at_ candles i)))%Q)).
    { unfold momentumStep.
      destruct (_ >? fzero)%f64 eqn:E; [|reflexivity].
      apply exact_ltb_iff in E. unfold fzero in E.
      cbn [fsub fconst exactQ] in E. lra. }
    rewrite Hstep.
    destruct (IH ltac:(intros j Hj; apply Hdown; now right)
                (gains,
                 (losses
                  + Qabs.Qabs (Close (at_ candles i) - Open (at_ candles i)))%Q))
      as (Hfst & Hle & Hlt).
    cbn [fst snd] in *.
    pose proof (Qabs.Qabs_nonneg (Close (at_ candles i) - Open (at_ candles i)))
      as Hnn.
    split; [exact Hfst|]. split; [lra|].
    intros (j & [<-|Hj] & Hstrict).
    + assert (0 < Qabs.Qabs (Close (at_ candles i) - Open (at_ candles i)))%Q.
      { rewrite Qabs.Qabs_neg by lra. lra. }
      lra.
    + specialize (Hlt ltac:(now exists j)). lra.
Qed.

Lemma momentumOf_cases (rsi : Q) :
  In (momentumOf rsi)
     ["OVERBOUGHT"; "OVERSOLD"; "BULLISH"; "BEARISH"; "NEUTRAL"]%string
  /\ (momentumOf rsi = "OVERBOUGHT"%string <-> (70 < rsi)%Q)
  /\ (momentumOf rsi = "OVERSOLD"%string <-> (rsi < 30)%Q).
Proof.
  unfold momentumOf.
  destruct (_ >? fconst 70 1)%f64 eqn:E1.
  { apply exact_ltb_iff in E1. cbn [fconst exactQ] in E1.
    split; [cbn; tauto|]. split; [tauto|].
    split; [discriminate|]. intros. exfalso. lra. }
  apply exact_ltb_false in E1. cbn [fconst exactQ] in E1.
  destruct (_ <? fconst 30 1)%f64 eqn:E2.
  { apply exact_ltb_iff in E2. cbn [fconst exactQ] in E2.
    split; [cbn; tauto|]. split; [|tauto].
    split; [discriminate|]. intros. exfalso. lra. }
  apply exact_ltb_false in E2. cbn [fconst exactQ] in E2.
  assert (Hno : forall P Q' : Prop, (P -> False) -> (Q' -> False) ->
                  forall s : string,
                    (s = "OVERBOUGHT"%string -> False) ->
                    (s = "OVERSOLD"%string -> False) ->
                    (s = "OVERBOUGHT"%string <-> P)
                    /\ (s = "OVERSOLD"%string <-> Q')) by (intros; tauto).
  destruct (_ >? fconst 55 1)%f64;
    [|destruct (_ <? fconst 45 1)%f64];
    (split; [cbn; tauto|apply Hno; try discriminate; intros; lra]).
Qed.

(** An overbought reading needs losing bars. In exact arithmetic, for 50
    bars or more (below 50 the answer is "Insufficient data"): the RSI of
    the technical summary is in [0, 100), and the momentum is OVERBOUGHT
    exactly above 70 and OVERSOLD exactly below 30; when none of the last
    14 bars closes below its open, the RSI is 50 and the momentum NEUTRAL,
    however large the gains; when none closes above its open and one
    closes below, the RSI is 0 and the momentum OVERSOLD. *)
Theorem technical_summary_momentum (candles : list (Candlestick Q)) :
  let len := List.length candles in
  ((len < 50)%nat -> CalculateTechnicalSummary candles = InsufficientData)
  /\ ((50 <= len)%nat ->
      exists trend volatility momentum rsi,
        CalculateTechnicalSummary candles
        = Technical trend volatility momentum rsi
        /\ (0 <= rsi)%Q /\ (rsi < 100)%Q
        /\ (momentum = "OVERBOUGHT"%string <-> (70 < rsi)%Q)
        /\ (momentum = "OVERSOLD"%string <-> (rsi < 30)%Q)
        /\ ((forall i, (len - 14 <= i < len)%nat ->
               (Open (at_ candles i) <= Close (at_ candles i))%Q) ->
            (rsi == 50)%Q /\ momentum = "NEUTRAL"%string)
        /\ ((forall i, (len - 14 <= i < len)%nat ->
               (Close (at_ candles i) <= Open (at_ candles i))%Q) ->
            (exists i, (len - 14 <= i < len)%nat
                       /\ (Close (at_ candles i) < Open (at_ candles i))%Q) ->
            (rsi == 0)%Q /\ momentum = "OVERSOLD"%string)).
Proof.
  intros len. split.
  - intros Hlen. unfold CalculateTechnicalSummary. fold len.
    apply Nat.ltb_lt in Hlen. now rewrite Hlen.
  - intros Hlen. unfold CalculateTechnicalSummary. fold len.
    apply Nat.ltb_ge in Hlen. rewrite Hlen. apply Nat.ltb_ge in Hlen.
    cbv zeta. do 4 eexists. split; [reflexivity|].
    assert (Hwin : forall i, In i (indices (len - 14) len)
                             <-> (len - 14 <= i < len)%nat).
    { intros i. unfold indices. rewrite in_seq. lia. }
    pose proof (momentumOf_cases (momentumRSI candles))
      as (_ & Hover & Hsold).
    pose proof (bodyGainsLosses_nonneg candles (indices (len - 14) len)
                  (fzero, fzero)) as Hnn.
    pose proof (momentumStep_rising candles (indices (len - 14) len))
      as Hrising.
    pose proof (momentumStep_falling candles (indices (len - 14) len))
      as Hfalling.
    revert Hover Hsold.
    unfold momentumRSI, bodyGainsLosses. fold len.
    specialize (fun H => Hrising H (fzero, fzero)).
    specialize (fun H => Hfalling H (fzero, fzero)).
    destruct (fold_left (momentumStep candles) (indices (len - 14) len)
                (fzero, fzero)) as [gains losses].
    cbn [fst snd] in *. unfold fzero in *.
    destruct Hnn as [Hg Hl]; try (cbn; lra).
    destruct (_ >? fconst 0 1)%f64 eqn:E.
    + apply exact_ltb_iff in E.
      cbn [fsub fadd fdiv fconst exactQ] in *.
      assert (Hrs : (0 <= gains / losses)%Q)
        by (apply Qle_shift_div_l; [exact E|lra]).
      assert (Hq : (0 < 100 / (1 + gains / losses))%Q
                   /\ (100 / (1 + gains / losses) <= 100)%Q).
      { split.
        - apply Qlt_shift_div_l; lra.
        - apply Qle_shift_div_r; lra. }
      intros Hover Hsold.
      split; [lra|]. split; [lra|]. split; [exact Hover|].
      split; [exact Hsold|]. split.
      * intros Hup. exfalso.
        specialize (Hrising ltac:(intros i Hi; apply Hup, Hwin, Hi)). lra.
      * intros Hdown Hstrict.
        destruct (Hfalling ltac:(intros i Hi; apply Hdown, Hwin, Hi))
          as (Hgains & _ & _).
        assert (Hzero : (100 - 100 / (1 + gains / losses) == 0)%Q).
        { rewrite Hgains. field. lra. }
        split; [exact Hzero|]. apply Hsold. lra.
    + apply exact_ltb_false in E.
      cbn [fsub fadd fdiv fconst exactQ] in *.
      intros Hover Hsold.
      split; [vm_compute; discriminate|]. split; [reflexivity|].
      split; [exact Hover|].
      split; [exact Hsold|]. split.
      * intros _. split; reflexivity.
      * intros Hdown Hstrict. exfalso.
        destruct (Hfalling ltac:(intros i Hi; apply Hdown, Hwin, Hi))
          as (_ & _ & Hlt).
        destruct Hstrict as (i & Hi & Hstrict).
        specialize (Hlt ltac:(exists i; split; [apply Hwin, Hi|exact Hstrict])).
        lra.
Qed.










Lemma technical_summary_momentum_witness :
  exists trend volatility momentum rsi,
    CalculateTechnicalSummary (ramp (F := Q) 50)
    = Technical trend volatility momentum rsi
    /\ (rsi == 50)%Q /\ momentum = "NEUTRAL"%string.
Proof.
  destruct (proj2 (technical_summary_momentum (ramp (F := Q) 50))
              ltac:(cbn; lia))
    as (trend & volatility & momentum & rsi & Hrun & _ & _ & _ & _ & Hup & _).
  exists trend, volatility, momentum, rsi. split; [exact Hrun|].
  apply Hup. intros i Hi. cbn [List.length ramp] in Hi.
  change (List.length (ramp (F := Q) 50)) with 50%nat in Hi.
  do 36 (destruct i as [|i]; [lia|]).
  do 14 (destruct i as [|i]; [vm_compute; discriminate|]).
  lia.
Defined.

(** The same two windows in double precision. *)
Example technical_summary_binary64 :
  CalculateTechnicalSummary (ramp (F := float) 50)
  = Technical "BULLISH" "MEDIUM" "NEUTRAL" 50%float
  /\ CalculateTechnicalSummary
       (map (fun k => let z := Z.of_nat k in
                      bar (F := float) (200 - z) (201 - z) (198 - z) (199 - z))
          (seq 0 50))
     = Technical "BEARISH" "MEDIUM" "OVERSOLD" 0%float.
Proof. split; vm_compute; reflexivity. Qed.

(** * The bars of a Yahoo response *)

Section YahooFacts.

Context {F : Type} {fl : Float64 F}.

Variables (quote : YahooQuote F) (interval : string).

Lemma yahooStep_cases (candles : list (Candlestick F)) (it : nat * Z) :
  (rowMissing quote (fst it) || rowEmpty quote (fst it) = true
   /\ yahooStep quote interval candles it = candles)
  \/ (rowMissing quote (fst it) || rowEmpty quote (fst it) = false
      /\ exists c,
           yahooStep quote interval candles it = candles ++ [c]
           /\ OpenTime c = snd it
           /\ CloseTime c = match intervalSeconds interval with
                            | Some seconds => (snd it + seconds)%int
                            | None => snd it
                            end
           /\ ((Open c =? fzero)%f64 && (High c =? fzero)%f64
               && (Low c =? fzero)%f64 && (Close c =? fzero)%f64) = false).
Proof.
  destruct it as [i timestamp]. unfold yahooStep. cbn [fst snd].
  destruct (rowMissing quote i); [left; now split|].
  destruct (rowEmpty quote i) eqn:Eempty; [left; now split|].
  right. split; [reflexivity|]. cbv zeta. eexists. split; [reflexivity|].
  cbn [OpenTime CloseTime Open High Low Close].
  split; [reflexivity|]. split; [reflexivity|].
  unfold rowEmpty in Eempty.
  destruct (nth i (QOpen quote) fzero =? fzero)%f64 eqn:Eo; cbn [andb];
    [|now rewrite Eo].
  destruct (nth i (QHigh quote) fzero =? fzero)%f64 eqn:Eh; cbn [andb];
    [|now rewrite Eh, andb_false_r].
  destruct (nth i (QLow quote) fzero =? fzero)%f64 eqn:El; cbn [andb];
    [|now rewrite El, !andb_false_r].
  cbn [andb] in Eempty. rewrite Eempty. cbn [andb].
  now rewrite Eempty, !andb_false_r.
Qed.

Lemma yahooRows_invariant (its : list (nat * Z)) :
  forall candles,
    let result := fold_left (yahooStep quote interval) its candles in
    map (@OpenTime F) result
    = map (@OpenTime F) candles
      ++ map snd
           (filter (fun it => negb (rowMissing quote (fst it)
                                    || rowEmpty quote (fst it))) its)
    /\ forall P : Candlestick F -> Prop,
         (forall c,
            CloseTime c = match intervalSeconds interval with
                          | Some seconds => (OpenTime c + seconds)%int
                          | None => OpenTime c
                          end ->
            ((Open c =? fzero)%f64 && (High c =? fzero)%f64
             && (Low c =? fzero)%f64 && (Close c =? fzero)%f64) = false ->
            P c) ->
         Forall P candles -> Forall P result.
Proof.
  induction its as [|it its IH]; intros candles result.
  - subst result. cbn. rewrite app_nil_r. now split.
  - subst result. cbn [fold_left filter].
    destruct (yahooStep_cases candles it)
      as [(Hskip & ->)|(Hkeep & c & -> & Hopen & Hclose & Hnz)].
    + rewrite Hskip. cbn [negb]. apply IH.
    + rewrite Hkeep. cbn [negb map].
      destruct (IH (candles ++ [c])) as (Htimes & Hall).
      split.
      * rewrite Htimes, map_app, <- app_assoc. cbn [map app].
        now rewrite Hopen.
      * intros P HP Hcandles. apply Hall; [exact HP|].
        apply Forall_app. split; [exact Hcandles|].
        constructor; [|constructor]. apply HP; [|exact Hnz].
        now rewrite Hclose, Hopen.
Qed.

End YahooFacts.

(** The bars made of a Yahoo response are the rows that have the four
    prices and at least one of them not 0, in the order of the time stamps:
    each bar opens at the time stamp of its row and closes the seconds of
    the interval later (at the same time for an interval that is none of
    the eleven), and no bar has its four prices all 0, whatever was
    repaired. *)
Theorem yahoo_rows_kept (F : Type) (fl : Float64 F)
    (timestamps : list Z) (quote : YahooQuote F) (interval : string) :
  let rows := yahooRows timestamps quote interval in
  map (@OpenTime F) rows
  = map snd
      (filter (fun it => negb (rowMissing quote (fst it)
                               || rowEmpty quote (fst it)))
         (indexed timestamps))
  /\ Forall (fun c =>
               CloseTime c = match intervalSeconds interval with
                             | Some seconds => (OpenTime c + seconds)%int
                             | None => OpenTime c
                             end
               /\ ((Open c =? fzero)%f64 && (High c =? fzero)%f64
                   && (Low c =? fzero)%f64 && (Close c =? fzero)%f64)
                  = false) rows.
Proof.
  intros rows. subst rows. unfold yahooRows.
  destruct (yahooRows_invariant quote interval (indexed timestamps) [])
    as (Htimes & Hall).
  split; [exact Htimes|]. apply Hall; [|constructor].
  intros c Hclose Hnz. now split.
Qed.

Lemma yahooRows_length (F : Type) (fl : Float64 F)
    (timestamps : list Z) (quote : YahooQuote F) (interval : string) :
  (List.length (yahooRows timestamps quote interval)
   <= List.length timestamps)%nat.
Proof.
  destruct (yahooRows_invariant quote interval (indexed timestamps) [])
    as (Htimes & _).
  apply (f_equal (@List.length Z)) in Htimes.
  cbn [map app] in Htimes. rewrite !length_map in Htimes.
  unfold yahooRows. rewrite Htimes.
  rewrite <- (indexed_length timestamps). apply filter_length_le.
Qed.

(** The limit keeps the most recent bars: [FetchYahooCandlesticks] returns
    the last min(n, limit) of the n bars made of the response, and 200 stands
    for a limit below 1. *)
Theorem yahoo_candles_limit (F : Type) (fl : Float64 F)
    (timestamps : list Z) (quote : YahooQuote F) (interval : string)
    (limit : Z) :
  Z.of_nat (List.length timestamps) <= Int.max_int ->
  let rows := yahooRows timestamps quote interval in
  let result := yahooCandles timestamps quote interval limit in
  Z.of_nat (List.length result)
  = Z.min (Z.of_nat (List.length rows)) (if limit <? 1 then 200 else limit)
  /\ (exists older, rows = older ++ result)
  /\ (List.length rows <= List.length timestamps)%nat.
Proof.
  intros Hlen rows result.
  pose proof (yahooRows_length F fl timestamps quote interval) as Hrows.
  fold rows in Hrows. split; [|split; [|exact Hrows]].
  - subst result. unfold yahooCandles. cbv zeta. fold rows.
    set (lim := if limit <? 1 then 200 else limit).
    assert (Hlim : 1 <= lim) by (subst lim; destruct (Z.ltb_spec limit 1); lia).
    destruct (Z.gtb_spec (Z.of_nat (List.length rows)) lim) as [Hgt|Hle];
      [|lia].
    unfold Int.sub. rewrite wrap_id
      by (unfold Int.in_range, Int.min_int, Int.max_int in *; lia).
    rewrite length_skipn. lia.
  - subst result. unfold yahooCandles. cbv zeta. fold rows.
    destruct (_ >? _).
    + eexists. symmetry. apply firstn_skipn.
    + exists []. reflexivity.
Qed.

Lemma yahoo_candles_limit_witness :
  Z.of_nat (List.length (yahooCandles sampleTimestamps sampleQuote "1m" 2))
  = Z.min (Z.of_nat (List.length
                       (yahooRows sampleTimestamps sampleQuote "1m"))) 2
  /\ (exists older,
        yahooRows sampleTimestamps sampleQuote "1m"
        = older ++ yahooCandles sampleTimestamps sampleQuote "1m" 2)
  /\ (List.length (yahooRows sampleTimestamps sampleQuote "1m")
      <= List.length sampleTimestamps)%nat.
Proof.
  apply (yahoo_candles_limit float binary64 sampleTimestamps sampleQuote
           "1m" 2).
  cbn. unfold Int.max_int. lia.
Defined.

(** * The shape of a candle *)

Lemma priceY_exact_order (chartTop chartHeight : Z)
    (minPrice maxPrice p q : Q) :
  (minPrice < maxPrice)%Q ->
  (minPrice <= p)%Q -> (p <= q)%Q -> (q <= maxPrice)%Q ->
  0 <= chartHeight ->
  Int.in_range chartTop -> Int.in_range chartHeight ->
  Int.in_range (chartTop + chartHeight) ->
  let y := priceY (F := Q) chartTop maxPrice (maxPrice - minPrice)%Q
             (of_int chartHeight) in
  chartTop <= y q /\ y q <= y p /\ y p <= chartTop + chartHeight.
Proof.
  intros Hrange Hlo Hpq Hhi Hheight Htop Hh Hbottom y. subst y.
  assert (Hp : (p <= maxPrice)%Q) by lra.
  assert (Hq : (minPrice <= q)%Q) by lra.
  rewrite (priceY_exact_floor chartTop chartHeight minPrice maxPrice p)
    by assumption.
  rewrite (priceY_exact_floor chartTop chartHeight minPrice maxPrice q)
    by assumption.
  destruct (depth_bounds maxPrice minPrice chartHeight Hrange Hheight
              p Hlo Hp) as [_ HpH].
  destruct (depth_bounds maxPrice minPrice chartHeight Hrange Hheight
              q Hq Hhi) as [Hq0 _].
  pose proof (depth_antitone maxPrice minPrice chartHeight Hrange Hheight
                p q Hpq) as Hmono.
  cbv beta zeta in HpH, Hq0, Hmono.
  apply Qfloor_resp_le in Hmono, Hq0, HpH.
  rewrite Qfloor_Z in HpH. change (Qfloor 0) with 0 in Hq0. lia.
Qed.

(** In exact arithmetic, a bar whose low and high enclose its open and
    close, inside the price range of the chart: the wick goes from the row
    of the high down to the row of the low, inside the chart area; the
    body has the width of a candle and a height of 1 or more, it starts at
    or below the top of the wick and ends at most one row below its bottom;
    wick and body have one color, red when the close is below the open and
    green otherwise; the only other call is the volume bar. *)
Theorem candle_body_on_wick (config : ChartConfig) (lay : Layout)
    (minPrice maxPrice maxVolume : Q) (i : nat) (c : Candlestick Q) :
  (minPrice < maxPrice)%Q ->
  (minPrice <= Low c)%Q -> (High c <= maxPrice)%Q ->
  (Low c <= Open c)%Q -> (Open c <= High c)%Q ->
  (Low c <= Close c)%Q -> (Close c <= High c)%Q ->
  0 <= chartTop lay -> 0 <= chartHeight lay ->
  chartTop lay + chartHeight lay < Int.max_int ->
  exists x wickX highY lowY bodyTop bodyBottom volume,
    drawCandle config lay maxPrice (maxPrice - minPrice)%Q maxVolume i c
    = Line wickX highY wickX lowY
        (if (Close c <? Open c)%f64 then colorBearish else colorBullish)
      :: FilledRect x bodyTop (x + CandleWidth config)%int bodyBottom
           (if (Close c <? Open c)%f64 then colorBearish else colorBullish)
      :: volume
    /\ wickX = (x + CandleWidth config / 2)%int
    /\ chartTop lay <= highY <= lowY
    /\ lowY <= chartTop lay + chartHeight lay
    /\ highY <= bodyTop < bodyBottom
    /\ bodyBottom <= lowY + 1
    /\ (List.length volume <= 1)%nat.
Proof.
  intros Hrange Hlo Hhi Hlo_o Ho_hi Hlo_c Hc_hi Htop Hheight Hfit.
  assert (Hin : Int.in_range (chartTop lay) /\ Int.in_range (chartHeight lay)
                /\ Int.in_range (chartTop lay + chartHeight lay))
    by (unfold Int.in_range, Int.min_int, Int.max_int in *; lia).
  destruct Hin as (Hin1 & Hin2 & Hin3).
  pose proof (fun p q H1 H2 H3 =>
                priceY_exact_order (chartTop lay) (chartHeight lay)
                  minPrice maxPrice p q Hrange H1 H2 H3 Hheight
                  Hin1 Hin2 Hin3) as Hord.
  cbv zeta in Hord.
  destruct (Hord (Low c) (Open c) Hlo Hlo_o ltac:(lra)) as (Ho1 & Ho2 & Ho3).
  destruct (Hord (Low c) (Close c) Hlo Hlo_c ltac:(lra)) as (Hc1 & Hc2 & _).
  destruct (Hord (Open c) (High c) ltac:(lra) Ho_hi Hhi) as (Hh1 & Hh2 & _).
  destruct (Hord (Close c) (High c) ltac:(lra) Hc_hi Hhi) as (_ & Hh3 & _).
  unfold drawCandle. cbv zeta.
  set (y := priceY (chartTop lay) maxPrice (maxPrice - minPrice)%Q
              (of_int (chartHeight lay))) in *.
  set (x := (chartLeft lay + Z.of_nat i * totalCandleWidth lay
             + CandleGap config / 2)%int).
  set (bodyTop := if y (Close c) <? y (Open c) then y (Close c)
                  else y (Open c)).
  set (bodyBottom := if y (Close c) <? y (Open c) then y (Open c)
                     else y (Close c)).
  assert (Hbody : y (High c) <= bodyTop <= bodyBottom
                  /\ bodyBottom <= y (Low c)).
  { subst bodyTop bodyBottom.
    destruct (Z.ltb_spec (y (Close c)) (y (Open c))); lia. }
  assert (Hsub : (bodyBottom - bodyTop)%int = bodyBottom - bodyTop).
  { unfold Int.sub. apply wrap_id.
    unfold Int.in_range, Int.min_int, Int.max_int in *. lia. }
  assert (Hadd : (bodyTop + 1)%int = bodyTop + 1).
  { unfold Int.add. apply wrap_id.
    unfold Int.in_range, Int.min_int, Int.max_int in *. lia. }
  rewrite Hsub, Hadd.
  exists x, (x + CandleWidth config / 2)%int, (y (High c)), (y (Low c)),
    bodyTop,
    (if bodyBottom - bodyTop <? 1 then bodyTop + 1 else bodyBottom).
  eexists. split; [reflexivity|]. split; [reflexivity|].
  split; [lia|]. split; [lia|].
  destruct (Z.ltb_spec (bodyBottom - bodyTop) 1).
  - repeat split; try lia.
    destruct (ShowVolume config && (maxVolume >? fzero)%f64); cbn; lia.
  - repeat split; try lia.
    destruct (ShowVolume config && (maxVolume >? fzero)%f64); cbn; lia.
Qed.

Lemma candle_body_on_wick_witness :
  exists x wickX highY lowY bodyTop bodyBottom volume,
    drawCandle (F := Q) DefaultChartConfig (layout DefaultChartConfig 0)
      110%Q (110 - 90)%Q 5%Q 3 (bar 100 102 99 101)
    = Line wickX highY wickX lowY
        (if (Close (bar (F := Q) 100 102 99 101)
             <? Open (bar (F := Q) 100 102 99 101))%f64
         then colorBearish else colorBullish)
      :: FilledRect x bodyTop (x + CandleWidth DefaultChartConfig)%int
           bodyBottom
           (if (Close (bar (F := Q) 100 102 99 101)
                <? Open (bar (F := Q) 100 102 99 101))%f64
            then colorBearish else colorBullish)
      :: volume
    /\ wickX = (x + CandleWidth DefaultChartConfig / 2)%int
    /\ chartTop (layout (F := Q) DefaultChartConfig 0) <= highY <= lowY
    /\ lowY <= chartTop (layout (F := Q) DefaultChartConfig 0)
               + chartHeight (layout (F := Q) DefaultChartConfig 0)
    /\ highY <= bodyTop < bodyBottom
    /\ bodyBottom <= lowY + 1
    /\ (List.length volume <= 1)%nat.
Proof.
  apply (candle_body_on_wick DefaultChartConfig
           (layout DefaultChartConfig 0) 90%Q 110%Q 5%Q 3
           (bar 100 102 99 101));
    vm_compute; try discriminate; reflexivity.
Defined.

(** * The candles in the chart area *)

Ltac in_range :=
  unfold Int.in_range, Int.min_int, Int.max_int in *; lia.

Lemma quot_small (a b : Z) :
  0 <= a <= 2 ^ 32 -> 0 < b -> 0 <= Z.quot a b <= a /\ b * Z.quot a b <= a.
Proof.
  intros Ha Hb. rewrite Z.quot_div_nonneg by lia.
  pose proof (Z.mul_div_le a b Hb).
  assert (0 <= a / b) by (apply Z.div_pos; lia). nia.
Qed.

(** The candles stand side by side inside the chart area. For a canvas of
    at most 2^31 pixels across with a padding that leaves a chart area, a
    candle width of 1 or more and a gap of 0 or more: every rectangle drawn
    for the candle at a visible index [i] (body and volume bar) has the
    width of a candle, starts at or right of the left edge of the chart
    area and ends at or left of its right edge, and ends where the
    rectangles of the next candle start or before; the wick is on a column
    of the body. *)
Theorem candles_side_by_side (F : Type) (fl : Float64 F)
    (config : ChartConfig) (labelSpace : Z)
    (maxPrice priceRange maxVolume : F) (i : nat) (c c' : Candlestick F) :
  let lay := layout (F := F) config labelSpace in
  0 <= Padding config -> 0 <= labelSpace ->
  2 * Padding config + labelSpace <= Width config <= 2 ^ 31 ->
  0 < CandleWidth config <= 2 ^ 31 -> 0 <= CandleGap config <= 2 ^ 31 ->
  Z.of_nat i < (chartWidth lay / totalCandleWidth lay)%int ->
  forall x1 y1 x2 y2 color,
    In (FilledRect x1 y1 x2 y2 color)
       (drawCandle config lay maxPrice priceRange maxVolume i c) ->
    x2 = x1 + CandleWidth config
    /\ chartLeft lay <= x1 /\ x2 <= chartRight lay
    /\ (forall wx wy1 wy2 wcolor,
          In (Line wx wy1 wx wy2 wcolor)
             (drawCandle config lay maxPrice priceRange maxVolume i c) ->
          x1 <= wx < x2)
    /\ (forall x1' y1' x2' y2' color',
          In (FilledRect x1' y1' x2' y2' color')
             (drawCandle config lay maxPrice priceRange maxVolume (S i) c') ->
          x2 <= x1').
Proof.
  intros lay Hpad Hls Hwidth Hcw Hgap Hi.
  assert (Hright : chartRight lay
                   = Width config - Padding config - labelSpace).
  { subst lay. cbn [layout chartRight]. unfold Int.sub.
    rewrite (wrap_id (Width config - Padding config)) by in_range.
    rewrite wrap_id by in_range. reflexivity. }
  assert (Hleft : chartLeft lay = Padding config) by reflexivity.
  assert (Hcwidth : chartWidth lay
                    = Width config - 2 * Padding config - labelSpace).
  { subst lay. cbn [layout chartWidth]. unfold Int.sub.
    rewrite (wrap_id (Width config - Padding config)) by in_range.
    rewrite (wrap_id (Width config - Padding config - labelSpace))
      by in_range.
    rewrite wrap_id by in_range. lia. }
  assert (Htcw : totalCandleWidth lay
                 = CandleWidth config + CandleGap config).
  { subst lay. cbn [layout totalCandleWidth]. unfold Int.add.
    apply wrap_id. unfold Int.in_range, Int.min_int, Int.max_int. lia. }
  set (tcw := CandleWidth config + CandleGap config) in *.
  set (cw := Width config - 2 * Padding config - labelSpace) in *.
  destruct (quot_small cw tcw ltac:(lia) ltac:(lia)) as (Hq & Hqm).
  destruct (quot_small (CandleGap config) 2 ltac:(lia) ltac:(lia))
    as (Hhalf & _).
  destruct (quot_small (CandleWidth config) 2 ltac:(lia) ltac:(lia))
    as (Hmid & Hmid2).
  assert (Hi' : Z.of_nat i < Z.quot cw tcw).
  { revert Hi. rewrite Hcwidth, Htcw. unfold Int.div.
    rewrite wrap_id
      by (unfold Int.in_range, Int.min_int, Int.max_int; lia). lia. }
  assert (Hprod : forall k, 0 <= k <= Z.quot cw tcw ->
                    0 <= k * tcw <= cw) by (intros k Hk; nia).
  assert (Hx : forall k : nat, Z.of_nat k <= Z.quot cw tcw ->
             (chartLeft lay + Z.of_nat k * totalCandleWidth lay
              + CandleGap config / 2)%int
             = Padding config + Z.of_nat k * tcw
               + Z.quot (CandleGap config) 2).
  { intros k Hk. rewrite Hleft, Htcw.
    pose proof (Hprod (Z.of_nat k) ltac:(lia)).
    unfold Int.add, Int.mul, Int.div.
    rewrite (wrap_id (Z.of_nat k * tcw)) by in_range.
    rewrite (wrap_id (Z.quot (CandleGap config) 2)) by in_range.
    rewrite (wrap_id (Padding config + Z.of_nat k * tcw)) by in_range.
    rewrite wrap_id by in_range. reflexivity. }
  pose proof (Hprod (Z.of_nat i) ltac:(lia)) as Hpi.
  pose proof (Hprod (Z.of_nat (S i)) ltac:(lia)) as Hpsi.
  assert (Hrect : forall (k : nat) (d : Candlestick F) a1 b1 a2 b2 col,
             Z.of_nat k <= Z.quot cw tcw ->
             In (FilledRect a1 b1 a2 b2 col)
                (drawCandle config lay maxPrice priceRange maxVolume k d) ->
             a1 = Padding config + Z.of_nat k * tcw
                  + Z.quot (CandleGap config) 2
             /\ a2 = a1 + CandleWidth config).
  { intros k d a1 b1 a2 b2 col Hk Hin.
    pose proof (Hprod (Z.of_nat k) ltac:(lia)) as Hpk.
    unfold drawCandle in Hin. cbv zeta in Hin. rewrite (Hx k Hk) in Hin.
    assert (Hw : Int.add (Padding config + Z.of_nat k * tcw
                          + Z.quot (CandleGap config) 2)%Z
                   (CandleWidth config)
                 = Padding config + Z.of_nat k * tcw
                   + Z.quot (CandleGap config) 2 + CandleWidth config).
    { unfold Int.add. apply wrap_id.
      unfold Int.in_range, Int.min_int, Int.max_int. lia. }
    rewrite Hw in Hin.
    destruct (ShowVolume config && (maxVolume >? fzero)%f64);
      cbn [app In] in Hin;
      repeat (destruct Hin as [Hin|Hin]; [try discriminate|]);
      try contradiction;
      injection Hin as <- _ <- _ _; split; reflexivity. }
  intros x1 y1 x2 y2 color Hin.
  destruct (Hrect i c x1 y1 x2 y2 color ltac:(lia) Hin) as (Ex1 & Ex2).
  split; [exact Ex2|]. rewrite Hleft, Hright.
  split; [lia|]. split; [nia|]. split.
  - intros wx wy1 wy2 wcolor Hw.
    unfold drawCandle in Hw. cbv zeta in Hw.
    rewrite (Hx i ltac:(lia)) in Hw.
    assert (Ewx : Int.add (Padding config + Z.of_nat i * tcw
                           + Z.quot (CandleGap config) 2)%Z
                    (Int.div (CandleWidth config) 2)
                  = Padding config + Z.of_nat i * tcw
                    + Z.quot (CandleGap config) 2
                    + Z.quot (CandleWidth config) 2).
    { unfold Int.add, Int.div.
      rewrite (wrap_id (Z.quot (CandleWidth config) 2)) by in_range.
      rewrite wrap_id by in_range. reflexivity. }
    rewrite Ewx in Hw.
    destruct (ShowVolume config && (maxVolume >? fzero)%f64);
      cbn [app In] in Hw;
      repeat (destruct Hw as [Hw|Hw]; [try discriminate|]);
      try contradiction;
      injection Hw as <- _ _ _; lia.
  - intros x1' y1' x2' y2' color' Hin'.
    destruct (Hrect (S i) c' x1' y1' x2' y2' color' ltac:(lia) Hin')
      as (Ex1' & _).
    nia.
Qed.

Lemma candles_side_by_side_witness :
  1139 = 1135 + CandleWidth DefaultChartConfig
  /\ chartLeft (layout (F := float) DefaultChartConfig 0) <= 1135
  /\ 1139 <= chartRight (layout (F := float) DefaultChartConfig 0).
Proof.
  destruct (candles_side_by_side float binary64 DefaultChartConfig 0
              110%float 20%float 5%float 179
              (bar 100 102 99 101) (bar 100 102 99 101)
              ltac:(cbn; lia) ltac:(lia) ltac:(cbn; lia) ltac:(cbn; lia)
              ltac:(cbn; lia) ltac:(vm_compute; reflexivity)
              1135 215 1139 232 (rgba 38 166 91 255)
              ltac:(vm_compute; right; left; reflexivity))
    as (H1 & H2 & H3 & _).
  repeat split; assumption.
Defined.
